(** * The hidden click-sequence gate of [static/secret_logic.js]

    A shallow embedding of the challenge script: the closure variables of the
    [DOMContentLoaded] handler, the part of the browser it talks to (timer
    table, document body, navigation, the pending verification request), its
    functions and event handlers as state transformers, and the event loop as
    a step function over events. *)

From Stdlib Require Import ZArith Lia.
From stdpp Require Import base option list gmap strings.

Local Open Scope Z_scope.

(** ** Data model *)

(** The three trigger zones built by [createTriggerZone]. *)
Inductive Zone := zone1 | zone2 | zone3.

(** Children of [document.body] the script mounts: a zone, or the floating
    readout created by [startTimer] (each [createElement] yields a new
    element, identified here by a number). *)
Inductive Node :=
  | ZoneNode (z : Zone)
  | TimerDiv (e : nat).

#[global] Instance Zone_eq_dec : EqDecision Zone.
Proof. solve_decision. Defined.

#[global] Instance Node_eq_dec : EqDecision Node.
Proof. solve_decision. Defined.

(** What a timer-table entry runs when it fires.  The closures of the source
    capture [startTime] and [durationSeconds] (overlay tick); the other two
    capture only [z3], which is the constant [zones.zone3].  Durations are
    kept in milliseconds: for an integer [n], [n / 1000 >= 3.5] in the source
    is [n >= 3500] here, and likewise for 4.5 and 3.0. *)
Inductive Task :=
  | OverlayTick (startTime durationMs : Z)   (* setInterval, 100 ms, startTimer *)
  | BurstEval                                (* setTimeout, 3000 ms *)
  | CpsTick.                                 (* setInterval, 100 ms *)

#[global] Instance Task_eq_dec : EqDecision Task.
Proof. solve_decision. Defined.

(** The inline style given to zone 3: as created, after [Object.assign] at
    the step 3 -> 4, after the two colour assignments on success. *)
Inductive Skin := SkinInvisible | SkinButton | SkinSuccess.

(** [z3.textContent]. *)
Inductive Label :=
  | LabelEmpty
  | LabelSTART
  | LabelOK
  | LabelCount (currentCPS : nat).

(** A parsed JSON body, as much of it as [d.path] can tell apart. *)
#[local] Unset Elimination Schemes.
Inductive Json :=
  | JNull
  | JBool (b : bool)
  | JNum (n : Z)
  | JStr (s : string)
  | JArr (items : list Json)
  | JObj (fields : list (string * Json)).
#[local] Set Elimination Schemes.

(** How the promise chain started by [fetch('/_s_a_p_')] settles before its
    last two callbacks: [fetch] rejects, [r.json()] rejects, or a body is
    parsed. *)
Inductive Outcome :=
  | NetworkError
  | ParseError
  | Parsed (d : Json).

(** The argument of [resetSequence]: one constructor per template literal of
    the source, holding the interpolated value.
    - [MsgStep2 timeDiff]   : `ПРОВАЛ. Неверный тайминг: ${timeDiff}ms.`
    - [MsgBlind timeDiff]   : `ПРОВАЛ. Тайминг для слепого клика: ${timeDiff}ms.`
    - [MsgBlind2 timeDiff]  : `ПРОВАЛ. Тайминг между слепыми кликами: ${timeDiff}ms.`
    - [MsgBurst totalClicks]: `ПРОВАЛ. Всего ${totalClicks}/180 кликов за 3 секунды.`
    - [MsgComm]             : "Ошибка связи." *)
Inductive Message :=
  | MsgStep2 (timeDiff : Z)
  | MsgBlind (timeDiff : Z)
  | MsgBlind2 (timeDiff : Z)
  | MsgBurst (totalClicks : nat)
  | MsgComm.

(** The [let] variables of the closure (lines 2-7). [null] is [None]. *)
Record Vars := mkVars {
  state : Z;
  lastClickTimestamp : Z;
  clickerTimestamps : list Z;
  cpsUpdateInterval : option positive;
  timerInterval : option positive;
  timerElement : option nat
}.

(** The browser's map of active [setTimeout]/[setInterval] ids (one id space
    for both), with the next id to hand out. *)
Record Timers := mkTimers {
  active : gmap positive Task;
  next_id : positive
}.

(** The document as far as the script changes it. [overlay_text] holds, per
    readout element, the elapsed milliseconds its [textContent] was rendered
    from ([toFixed(1)] of the seconds). *)
Record Dom := mkDom {
  body : list Node;
  next_elem : nat;
  overlay_text : gmap nat Z;
  z3_skin : Skin;
  z3_text : Label
}.

(** Navigation and network: requests to [/_s_a_p_] in flight, the value last
    assigned to [window.location.href], the number of
    [window.location.reload()] calls, and the history of [resetSequence]
    calls with their argument (most recent first). *)
Record Nav := mkNav {
  fetches : nat;
  href : option Json;
  reloads : nat;
  reset_calls : list Message
}.

Record World := mkWorld {
  vars : Vars;
  timers : Timers;
  dom : Dom;
  nav : Nav
}.

(** ** Field updates *)

Definition with_vars (f : Vars -> Vars) (w : World) : World :=
  mkWorld (f (vars w)) (timers w) (dom w) (nav w).
Definition with_timers (f : Timers -> Timers) (w : World) : World :=
  mkWorld (vars w) (f (timers w)) (dom w) (nav w).
Definition with_dom (f : Dom -> Dom) (w : World) : World :=
  mkWorld (vars w) (timers w) (f (dom w)) (nav w).
Definition with_nav (f : Nav -> Nav) (w : World) : World :=
  mkWorld (vars w) (timers w) (dom w) (f (nav w)).

Definition set_state (x : Z) (v : Vars) : Vars :=
  mkVars x (lastClickTimestamp v) (clickerTimestamps v)
         (cpsUpdateInterval v) (timerInterval v) (timerElement v).
Definition set_lastClickTimestamp (x : Z) (v : Vars) : Vars :=
  mkVars (state v) x (clickerTimestamps v)
         (cpsUpdateInterval v) (timerInterval v) (timerElement v).
Definition set_clickerTimestamps (x : list Z) (v : Vars) : Vars :=
  mkVars (state v) (lastClickTimestamp v) x
         (cpsUpdateInterval v) (timerInterval v) (timerElement v).
Definition set_cpsUpdateInterval (x : option positive) (v : Vars) : Vars :=
  mkVars (state v) (lastClickTimestamp v) (clickerTimestamps v)
         x (timerInterval v) (timerElement v).
Definition set_timerInterval (x : option positive) (v : Vars) : Vars :=
  mkVars (state v) (lastClickTimestamp v) (clickerTimestamps v)
         (cpsUpdateInterval v) x (timerElement v).
Definition set_timerElement (x : option nat) (v : Vars) : Vars :=
  mkVars (state v) (lastClickTimestamp v) (clickerTimestamps v)
         (cpsUpdateInterval v) (timerInterval v) x.

(** ** Handler activations

    A handler runs to completion on the world; every [Date.now()] it
    evaluates takes the next reading of a clock oracle, so that two reads in
    one activation need not agree. *)

Definition Clock := nat -> Z.

Definition M (A : Type) : Type := Clock -> World -> A * Clock * World.

Definition ret {A} (a : A) : M A := fun c w => (a, c, w).

Definition bind {A B} (m : M A) (k : A -> M B) : M B :=
  fun c w => match m c w with (a, c', w') => k a c' w' end.

Declare Scope gate_scope.
Delimit Scope gate_scope with gate.
Notation "x <- y ;; z" := (bind y (fun x => z))
  (at level 100, y at next level, z at level 200, right associativity,
   only parsing) : gate_scope.
Notation "y ;; z" := (bind y (fun _ => z))
  (at level 100, z at level 200, right associativity,
   only parsing) : gate_scope.
Local Open Scope gate_scope.

Definition gets {A} (f : World -> A) : M A := fun c w => (f w, c, w).

Definition modify (f : World -> World) : M unit := fun c w => (tt, c, f w).

Definition assign (f : Vars -> Vars) : M unit := modify (with_vars f).

Definition skip : M unit := ret tt.

(** The world a handler leaves behind. *)
Definition exec {A} (m : M A) (c : Clock) (w : World) : World := snd (m c w).

(** [Date.now()] *)
Definition Date_now : M Z :=
  fun c w => (c 0%nat, (fun k => c (S k)), w).

(** ** Browser primitives *)

(** [setInterval] and [setTimeout] enter a task under a fresh id and return
    the id. *)
Definition register (t : Task) : M positive :=
  fun c w =>
    let id := next_id (timers w) in
    (id, c, with_timers (fun T => mkTimers (<[id := t]> (active T)) (Pos.succ id)) w).

Definition setInterval (t : Task) : M positive := register t.

Definition setTimeout (t : Task) : M positive := register t.

(** [clearInterval(h)]: nothing for [null] or for an id that is not active. *)
Definition clearInterval (h : option positive) : M unit :=
  match h with
  | None => skip
  | Some id =>
      modify (with_timers (fun T => mkTimers (delete id (active T)) (next_id T)))
  end.

(** [document.createElement('div')] for the readout. *)
Definition createElement : M nat :=
  fun c w =>
    let e := next_elem (dom w) in
    (e, c, with_dom (fun d => mkDom (body d) (S e) (overlay_text d)
                                    (z3_skin d) (z3_text d)) w).

Definition detach (n : Node) (l : list Node) : list Node :=
  filter (fun x => x <> n) l.

(** [n.remove()]: nothing when [n] is not mounted. *)
Definition remove (n : Node) : M unit :=
  modify (with_dom (fun d => mkDom (detach n (body d)) (next_elem d)
                                   (overlay_text d) (z3_skin d) (z3_text d))).

(** [document.body.appendChild(n)]: a mounted node moves to the end. *)
Definition appendChild (n : Node) : M unit :=
  modify (with_dom (fun d => mkDom (detach n (body d) ++ [n]) (next_elem d)
                                   (overlay_text d) (z3_skin d) (z3_text d))).

(** [timerElement.textContent = elapsedTime.toFixed(1)] *)
Definition set_overlay_text (e : nat) (elapsedMs : Z) : M unit :=
  modify (with_dom (fun d => mkDom (body d) (next_elem d)
                                   (<[e := elapsedMs]> (overlay_text d))
                                   (z3_skin d) (z3_text d))).

Definition restyle_z3 (s : Skin) : M unit :=
  modify (with_dom (fun d => mkDom (body d) (next_elem d) (overlay_text d)
                                   s (z3_text d))).

Definition set_z3_text (l : Label) : M unit :=
  modify (with_dom (fun d => mkDom (body d) (next_elem d) (overlay_text d)
                                   (z3_skin d) l)).

(** [window.location.reload()] *)
Definition location_reload : M unit :=
  modify (with_nav (fun n => mkNav (fetches n) (href n) (S (reloads n))
                                   (reset_calls n))).

(** [window.location.href = v] *)
Definition location_assign (v : Json) : M unit :=
  modify (with_nav (fun n => mkNav (fetches n) (Some v) (reloads n)
                                   (reset_calls n))).

(** [fetch('/_s_a_p_')] *)
Definition fetch_sap : M unit :=
  modify (with_nav (fun n => mkNav (S (fetches n)) (href n) (reloads n)
                                   (reset_calls n))).

Definition note_reset (message : Message) : M unit :=
  modify (with_nav (fun n => mkNav (fetches n) (href n) (reloads n)
                                   (message :: reset_calls n))).

(** [d.path] for a body that is not [null]: [None] is [undefined].
    [JSON.parse] keeps the last of several equal keys. *)
Definition get_path (d : Json) : option Json :=
  match d with
  | JObj fields =>
      snd <$> List.find (fun kv => bool_decide (fst kv = "path"%string)) (rev fields)
  | _ => None
  end.

(** JavaScript truthiness of [d.path]. *)
Definition truthy (v : option Json) : bool :=
  match v with
  | None => false
  | Some JNull => false
  | Some (JBool b) => b
  | Some (JNum n) => negb (n =? 0)
  | Some (JStr s) => negb (bool_decide (s = ""%string))
  | Some (JArr _) => true
  | Some (JObj _) => true
  end.

(** [Array.prototype.filter] with a predicate that has effects. *)
Fixpoint filterM {A} (p : A -> M bool) (l : list A) : M (list A) :=
  match l with
  | [] => ret []
  | x :: l' =>
      b <- p x;;
      r <- filterM p l';;
      ret (if b : bool then x :: r else r)
  end.

(** ** The functions of the script *)

(** [stopTimer] (lines 33-39) *)
Definition stopTimer : M unit :=
  h <- gets (fun w => timerInterval (vars w));;
  clearInterval h;;
  el <- gets (fun w => timerElement (vars w));;
  match el with
  | Some e => remove (TimerDiv e);; assign (set_timerElement None)
  | None => skip
  end.

(** [startTimer] (lines 9-31); the interval body is [overlayTick] below. *)
Definition startTimer (durationMs : Z) : M unit :=
  stopTimer;;
  e <- createElement;;
  assign (set_timerElement (Some e));;
  appendChild (TimerDiv e);;
  startTime <- Date_now;;
  id <- setInterval (OverlayTick startTime durationMs);;
  assign (set_timerInterval (Some id)).

(** The callback given to [setInterval] in [startTimer] (lines 23-30). It
    reads the variable [timerElement], not the element of its own call; on
    [null] the assignment throws and the callback ends there. *)
Definition overlayTick (startTime durationMs : Z) : M unit :=
  now <- Date_now;;
  let elapsedMs := now - startTime in
  if durationMs <=? elapsedMs then stopTimer
  else
    el <- gets (fun w => timerElement (vars w));;
    match el with
    | Some e => set_overlay_text e elapsedMs
    | None => skip
    end.

(** [resetSequence] (lines 55-60). The argument is not used by the body. *)
Definition resetSequence (message : Message) : M unit :=
  note_reset message;;
  h <- gets (fun w => cpsUpdateInterval (vars w));;
  clearInterval h;;
  stopTimer;;
  location_reload.

(** ** The event handlers *)

(** Click on zone 1 (lines 62-69) *)
Definition zone1_click : M unit :=
  st <- gets (fun w => state (vars w));;
  if st =? 0 then
    assign (set_state 1);;
    now <- Date_now;;
    assign (set_lastClickTimestamp now);;
    startTimer 3500;;
    remove (ZoneNode zone1);;
    appendChild (ZoneNode zone2)
  else skip.

(** Click on zone 2 (lines 71-83) *)
Definition zone2_click : M unit :=
  st <- gets (fun w => state (vars w));;
  if st =? 1 then
    now <- Date_now;;
    last <- gets (fun w => lastClickTimestamp (vars w));;
    let timeDiff := now - last in
    if (2000 <=? timeDiff) && (timeDiff <=? 3500) then
      assign (set_state 2);;
      now' <- Date_now;;
      assign (set_lastClickTimestamp now');;
      startTimer 4500;;
      remove (ZoneNode zone2);;
      appendChild (ZoneNode zone3)
    else resetSequence (MsgStep2 timeDiff)
  else skip.

(** The callback given to [setTimeout] (lines 126-136) *)
Definition burstEvaluation : M unit :=
  st <- gets (fun w => state (vars w));;
  if st =? 5 then
    buf <- gets (fun w => clickerTimestamps (vars w));;
    let totalClicks := length buf in
    if (180 <=? totalClicks)%nat then
      assign (set_state 6);;
      h <- gets (fun w => cpsUpdateInterval (vars w));;
      clearInterval h;;
      stopTimer;;
      restyle_z3 SkinSuccess;;
      set_z3_text LabelOK;;
      fetch_sap
    else resetSequence (MsgBurst totalClicks)
  else skip.

(** The callback given to [setInterval] for the rate display
    (lines 138-141); [Date.now()] is evaluated once per entry. *)
Definition cpsTick : M unit :=
  buf <- gets (fun w => clickerTimestamps (vars w));;
  recent <- filterM (fun ts => now <- Date_now;; ret (now - ts <? 1000)) buf;;
  set_z3_text (LabelCount (length recent)).

(** Click on zone 3 (lines 85-147). The two early [return]s are the
    [else] branches of the chain. *)
Definition zone3_click : M unit :=
  now <- Date_now;;
  st <- gets (fun w => state (vars w));;
  if st =? 2 then
    last <- gets (fun w => lastClickTimestamp (vars w));;
    let timeDiff := now - last in
    if (3000 <=? timeDiff) && (timeDiff <=? 4500) then
      assign (set_state 3);;
      assign (set_lastClickTimestamp now);;
      startTimer 3000
    else resetSequence (MsgBlind timeDiff)
  else if st =? 3 then
    last <- gets (fun w => lastClickTimestamp (vars w));;
    let timeDiff := now - last in
    if (2000 <=? timeDiff) && (timeDiff <=? 3000) then
      assign (set_state 4);;
      stopTimer;;
      restyle_z3 SkinButton;;
      set_z3_text LabelSTART
    else resetSequence (MsgBlind2 timeDiff)
  else if (st =? 4) || (st =? 5) then
    (if st =? 4 then
       assign (set_state 5);;
       assign (set_clickerTimestamps []);;
       startTimer 3000;;
       _ <- setTimeout BurstEval;;
       id <- setInterval CpsTick;;
       assign (set_cpsUpdateInterval (Some id))
     else skip);;
    st' <- gets (fun w => state (vars w));;
    if st' =? 5 then
      buf <- gets (fun w => clickerTimestamps (vars w));;
      assign (set_clickerTimestamps (buf ++ [now]))
    else skip
  else skip.

(** The last two callbacks of the promise chain (lines 132-133):
    [d => { if (d.path) window.location.href = d.path; }] and the [catch]
    handler. Reading [d.path] of [null] throws, which the [catch] handler
    receives like a rejection of [fetch] or of [r.json()]. *)
Definition fetchSettled (o : Outcome) : M unit :=
  match o with
  | NetworkError => resetSequence MsgComm
  | ParseError => resetSequence MsgComm
  | Parsed JNull => resetSequence MsgComm
  | Parsed d =>
      match get_path d with
      | Some v => if truthy (Some v) then location_assign v else skip
      | None => skip
      end
  end.

(** ** The event loop *)

Inductive Event :=
  | Click (z : Zone)
  | Fire (id : positive)
  | Settle (o : Outcome).

(** A timeout leaves the table when it fires, an interval stays. A firing
    for an id that is not active, and a settlement when no request is in
    flight, run nothing. *)
Definition handle (ev : Event) : M unit :=
  match ev with
  | Click zone1 => zone1_click
  | Click zone2 => zone2_click
  | Click zone3 => zone3_click
  | Fire id =>
      t <- gets (fun w => active (timers w) !! id);;
      match t with
      | None => skip
      | Some (OverlayTick startTime durationMs) => overlayTick startTime durationMs
      | Some CpsTick => cpsTick
      | Some BurstEval =>
          modify (with_timers (fun T => mkTimers (delete id (active T)) (next_id T)));;
          burstEvaluation
      end
  | Settle o =>
      n <- gets (fun w => fetches (nav w));;
      match n with
      | O => skip
      | S k =>
          modify (with_nav (fun n => mkNav k (href n) (reloads n) (reset_calls n)));;
          fetchSettled o
      end
  end.

(** One turn of the loop: an event together with the clock readings its
    handler will see. *)
Definition step (w : World) (ev : Event * Clock) : World :=
  exec (handle (fst ev)) (snd ev) w.

Definition run (w : World) (evs : list (Event * Clock)) : World :=
  fold_left step evs w.

(** The page as the [DOMContentLoaded] handler leaves it (lines 2-7, 149). *)
Definition initial : World :=
  mkWorld (mkVars 0 0 [] None None None)
          (mkTimers ∅ 1%positive)
          (mkDom [ZoneNode zone1] 0 ∅ SkinInvisible LabelEmpty)
          (mkNav 0 None 0 []).

Inductive reachable : World -> Prop :=
  | reach_initial : reachable initial
  | reach_step w ev : reachable w -> reachable (step w ev).

(** ** Notions used by the statements *)

(** The stage test that lets the handler of a zone act: [state === 0] for
    zone 1, [state === 1] for zone 2, and for zone 3 one of [state === 2],
    [state === 3], [state === 4 || state === 5]. *)
Definition guard (z : Zone) (st : Z) : bool :=
  match z with
  | zone1 => st =? 0
  | zone2 => st =? 1
  | zone3 => (st =? 2) || (st =? 3) || (st =? 4) || (st =? 5)
  end.

(** The [timeDiff] a timed handler computes: its first clock reading minus
    [lastClickTimestamp]. *)
Definition elapsed (c : Clock) (w : World) : Z :=
  c 0%nat - lastClickTimestamp (vars w).

(** A click was accepted: the stage went up by one and no reset was called. *)
Definition advanced (w w' : World) : Prop :=
  state (vars w') = state (vars w) + 1 /\
  reloads (nav w') = reloads (nav w) /\
  reset_calls (nav w') = reset_calls (nav w).

(** A click was rejected: [resetSequence] was called with [m] and requested
    the reload; the stage variable is as before. *)
Definition was_reset (m : Message) (w w' : World) : Prop :=
  state (vars w') = state (vars w) /\
  reloads (nav w') = S (reloads (nav w)) /\
  reset_calls (nav w') = m :: reset_calls (nav w).

(** [totalClicks] as the evaluation would read it: the buffer length. *)
Definition tally (w : World) : nat := length (clickerTimestamps (vars w)).

(** How the stage may change in one turn: not at all, or up by one from a
    stage between 0 and 5. *)
Definition stage_move (s s' : Z) : Prop :=
  s' = s \/ (s' = s + 1 /\ 0 <= s <= 5).

(** A clock that shows [t] throughout an activation. *)
Definition at_time (t : Z) : Clock := fun _ => t.

(** Clicks on zone 3, each with its own clock. *)
Definition burst (cs : list Clock) : list (Event * Clock) :=
  map (fun c => (Click zone3, c)) cs.

(** For each buffer entry, in order, whether it passes [Date.now() - ts < 1000]
    against the reading taken when it is examined. *)
Definition in_trailing_second (c : Clock) (buf : list Z) : list bool :=
  imap (fun k ts => bool_decide (c k - ts < 1000)) buf.

Definition count_true (l : list bool) : nat := length (filter (fun b => b = true) l).

(** The states after the first, second and third accepted click. *)
Definition stage1 : World := step initial (Click zone1, at_time 0).
Definition stage2 : World := step stage1 (Click zone2, at_time 2500).
Definition stage3 : World := step stage2 (Click zone3, at_time 6000).

(** The state after the four timed clicks of a good attempt: stage 4, zone 3
    mounted and showing START. *)
Definition armed : World := step stage3 (Click zone3, at_time 8500).

(** The burst started at 9000 with [n] further clicks at 9001, 9002, ... *)
Definition bursting (n : nat) : World :=
  run armed ((Click zone3, at_time 9000)
             :: burst (map (fun k => at_time (9001 + Z.of_nat k)) (seq 0 n))).

(** The state after a successful evaluation: stage 6, one request in flight. *)
Definition succeeded : World :=
  step (bursting 179) (Fire 5%positive, at_time 12000).

(** The readout elements among the children of the body, in order. *)
Definition overlay_nodes (l : list Node) : list nat :=
  omap (fun n => match n with TimerDiv e => Some e | ZoneNode _ => None end) l.

Definition is_overlay (t : Task) : Prop :=
  match t with OverlayTick _ _ => True | _ => False end.

(** No overlay is active: no readout is held in [timerElement], and the id
    in [timerInterval], if any, is not in the timer table. *)
Definition overlay_idle (w : World) : Prop :=
  timerElement (vars w) = None /\
  forall id, timerInterval (vars w) = Some id -> active (timers w) !! id = None.

(** [w'] is what [window.location.reload()] leaves when it is called in a
    world whose timer table is empty. *)
Definition reloaded_quiet (c : Clock) (w' : World) : Prop :=
  exists w1, active (timers w1) = ∅ /\ w' = exec location_reload c w1.

(** A turn from [w] to [w'] either called no reset, or ended in a reload
    with nothing left scheduled. *)
Definition turn_quiet (c : Clock) (w w' : World) : Prop :=
  reset_calls (nav w') = reset_calls (nav w) \/ reloaded_quiet c w'.

(** The interval id and the element the script holds were handed out
    earlier. *)
Definition handles_issued (w : World) : Prop :=
  (forall id, timerInterval (vars w) = Some id ->
              (id < next_id (timers w))%positive) /\
  (forall e, timerElement (vars w) = Some e -> (e < next_elem (dom w))%nat).

(** What every reachable world satisfies, on timers: the burst timeout and
    the rate interval exist only at stage 5; there is at most one burst
    timeout; an overlay interval is the one [timerInterval] names and the
    rate interval the one [cpsUpdateInterval] names; nothing is scheduled at
    stage 6; a request is in flight only at stage 6; ids in use are below the
    next id. *)
Record timers_inv (w : World) : Prop := {
  inv_burst_stage : forall id,
    active (timers w) !! id = Some BurstEval -> state (vars w) = 5;
  inv_cps_stage : forall id,
    active (timers w) !! id = Some CpsTick -> state (vars w) = 5;
  inv_burst_unique : forall i j,
    active (timers w) !! i = Some BurstEval ->
    active (timers w) !! j = Some BurstEval -> i = j;
  inv_overlay_handle : forall id s d,
    active (timers w) !! id = Some (OverlayTick s d) ->
    timerInterval (vars w) = Some id;
  inv_cps_handle : forall id,
    active (timers w) !! id = Some CpsTick ->
    cpsUpdateInterval (vars w) = Some id;
  inv_done_quiet : state (vars w) = 6 -> active (timers w) = ∅;
  inv_fetch_done : (0 < fetches (nav w))%nat -> state (vars w) = 6;
  inv_fresh : forall id t,
    active (timers w) !! id = Some t -> (id < next_id (timers w))%positive;
  inv_handle_fresh : forall id,
    timerInterval (vars w) = Some id -> (id < next_id (timers w))%positive;
  inv_handle_kind : forall id t,
    timerInterval (vars w) = Some id -> active (timers w) !! id = Some t ->
    is_overlay t
}.

(** And on the document: the mounted readouts are exactly the element held
    in [timerElement], and that element was created before the next one. *)
Record overlay_inv (w : World) : Prop := {
  inv_overlay_nodes :
    overlay_nodes (body (dom w)) = option_list (timerElement (vars w));
  inv_elem_fresh : forall e,
    timerElement (vars w) = Some e -> (e < next_elem (dom w))%nat
}.


(** The state after a response that carries a path. *)
Definition redirected : World :=
  step succeeded
       (Settle (Parsed (JObj [("path"%string, JStr "/hidden")])), at_time 12100).

(** A clock whose successive readings are [t], [t + 1], [t + 2], ... *)
Definition ticking (t : Z) : Clock := fun k => t + Z.of_nat k.

(** The zones among the children of the body, in order. *)
Definition zone_nodes (l : list Node) : list Zone :=
  omap (fun n => match n with ZoneNode z => Some z | TimerDiv _ => None end) l.

(** The zone whose handler acts at a stage (zone 3 from stage 2 on). *)
Definition zone_for (st : Z) : Zone :=
  if st <=? 0 then zone1 else if st =? 1 then zone2 else zone3.

(** The look of zone 3 at a stage. *)
Definition skin_for (st : Z) : Skin :=
  if st <=? 3 then SkinInvisible
  else if st <=? 5 then SkinButton else SkinSuccess.

(** What every reachable world satisfies on the progress of an attempt. *)
Record progress_inv (w : World) : Prop := {
  inv_stage_range : 0 <= state (vars w) <= 6;
  inv_buffer_before : state (vars w) <= 4 -> clickerTimestamps (vars w) = [];
  inv_buffer_armed : 5 <= state (vars w) -> (1 <= tally w)%nat;
  inv_success_tally : state (vars w) = 6 -> (180 <= tally w)%nat;
  inv_no_request_before :
    state (vars w) <> 6 -> fetches (nav w) = 0%nat /\ href (nav w) = None;
  inv_one_request : (fetches (nav w) <= 1)%nat;
  inv_zone : zone_nodes (body (dom w)) = [zone_for (state (vars w))];
  inv_skin : z3_skin (dom w) = skin_for (state (vars w))
}.

(** While an overlay interval is active the script holds a readout. *)
Definition overlay_live (w : World) : Prop :=
  forall id s d, active (timers w) !! id = Some (OverlayTick s d) ->
                 is_Some (timerElement (vars w)).

(** ** The live-refresh script (second [DOMContentLoaded] handler)

    The page as this script sees it: the two containers, the CSRF meta
    element, the event source, the update requests in flight, the pending
    fade timeouts and the console. The script keeps no variables of its own
    besides the three constants. *)
Module Live.

(** [EventSource.readyState] *)
Inductive ReadyState := CONNECTING | OPEN | CLOSED.

(** Console output, one constructor per message of the source:
    - [LogFetching]     : console.log("Получение обновлений...")
    - [ErrNoContainers] : console.error("Не найдены контейнеры для динамического обновления.")
    - [ErrUpdateFailed] : console.error("Не удалось обновить данные:", error)
    - [ErrEventSource]  : console.error("Ошибка EventSource. ...", err) *)
Inductive LogLine :=
  | LogFetching
  | ErrNoContainers
  | ErrUpdateFailed
  | ErrEventSource.

(** A container element: its [innerHTML] and its inline [style.opacity]
    ([None] while the script has not set it). *)
Record Container := mkContainer {
  innerHTML : string;
  opacity : option Z
}.

(** [csrf_meta] is what [document.querySelector('meta[name="csrf-token"]')]
    finds: no element, or the element with its [content] attribute
    ([getAttribute] gives [null] when the attribute is missing). [sent] holds
    the [X-CSRFToken] value of every update request issued, most recent
    first; [fades] the closures given to [setTimeout(..., 300)], each with the
    two fragments it captured. *)
Record Live := mkLive {
  serverListContainer : Container;
  downtimeTableContainer : Container;
  csrf_meta : option (option string);
  readyState : ReadyState;
  in_flight : nat;
  sent : list (option string);
  fades : gmap positive (string * string);
  next_fade : positive;
  console : list LogLine
}.

(** Without both containers the handler returns before creating the event
    source (lines 154-157); nothing of the script is left to run. *)
Inductive Page :=
  | NotSetUp (log : list LogLine)
  | Running (p : Live).

(** How the two fetches of one update end: [Promise.all] rejects, or both
    respond, with their [ok] flags and what [text()] resolves to ([None]: it
    rejects). *)
Inductive Fetched :=
  | Rejected
  | Responded (ok1 ok2 : bool) (text1 text2 : option string).

Definition log_line (l : LogLine) (p : Live) : Live :=
  mkLive (serverListContainer p) (downtimeTableContainer p) (csrf_meta p)
         (readyState p) (in_flight p) (sent p) (fades p) (next_fade p)
         (l :: console p).

Definition set_readyState (r : ReadyState) (p : Live) : Live :=
  mkLive (serverListContainer p) (downtimeTableContainer p) (csrf_meta p)
         r (in_flight p) (sent p) (fades p) (next_fade p) (console p).

Definition set_in_flight (n : nat) (p : Live) : Live :=
  mkLive (serverListContainer p) (downtimeTableContainer p) (csrf_meta p)
         (readyState p) n (sent p) (fades p) (next_fade p) (console p).

(** The two [fetch] calls of [Promise.all], with the header. *)
Definition fetch_fragments (token : option string) (p : Live) : Live :=
  mkLive (serverListContainer p) (downtimeTableContainer p) (csrf_meta p)
         (readyState p) (S (in_flight p)) (token :: sent p) (fades p)
         (next_fade p) (console p).

(** [serverListContainer.style.opacity = 0; downtimeTableContainer.style.opacity = 0] *)
Definition fade_out (p : Live) : Live :=
  mkLive (mkContainer (innerHTML (serverListContainer p)) (Some 0))
         (mkContainer (innerHTML (downtimeTableContainer p)) (Some 0))
         (csrf_meta p) (readyState p) (in_flight p) (sent p) (fades p)
         (next_fade p) (console p).

(** [setTimeout(() => {...}, 300)] *)
Definition schedule_fade (h : string * string) (p : Live) : Live :=
  mkLive (serverListContainer p) (downtimeTableContainer p) (csrf_meta p)
         (readyState p) (in_flight p) (sent p)
         (<[next_fade p := h]> (fades p)) (Pos.succ (next_fade p)) (console p).

(** The callback of that timeout (lines 182-187). *)
Definition fade_in (h : string * string) (p : Live) : Live :=
  mkLive (mkContainer (fst h) (Some 1)) (mkContainer (snd h) (Some 1))
         (csrf_meta p) (readyState p) (in_flight p) (sent p) (fades p)
         (next_fade p) (console p).

(** [updateContent] up to its first [await] (lines 159-170). A missing meta
    element makes [getAttribute] throw, which the [catch] block logs. *)
Definition updateContent (p : Live) : Live :=
  let p := log_line LogFetching p in
  match csrf_meta p with
  | None => log_line ErrUpdateFailed p
  | Some csrfToken => fetch_fragments csrfToken p
  end.

(** The rest of [updateContent], once [Promise.all] has settled
    (lines 172-191). Between its three [await]s it changes nothing, so it is
    resumed with the whole outcome at once. *)
Definition updateContent_resume (o : Fetched) (p : Live) : Live :=
  match o with
  | Rejected => log_line ErrUpdateFailed p
  | Responded ok1 ok2 text1 text2 =>
      if negb ok1 || negb ok2 then log_line ErrUpdateFailed p
      else
        match text1 with
        | None => log_line ErrUpdateFailed p
        | Some serverListHtml =>
            match text2 with
            | None => log_line ErrUpdateFailed p
            | Some downtimeTableHtml =>
                schedule_fade (serverListHtml, downtimeTableHtml) (fade_out p)
            end
        end
  end.

(** [eventSource.onmessage] (lines 196-200) *)
Definition onmessage (data : string) (p : Live) : Live :=
  if bool_decide (data = "update"%string) then updateContent p else p.

(** [eventSource.onerror] (lines 202-208); [close()] sets [CLOSED]. *)
Definition onerror (p : Live) : Live :=
  match readyState p with
  | CLOSED => p
  | _ => set_readyState CLOSED (log_line ErrEventSource p)
  end.

(** The [DOMContentLoaded] handler (lines 150-209), given what the two
    [getElementById] calls find. *)
Definition setup (serverList downtimeTable : option Container)
    (meta : option (option string)) : Page :=
  match serverList, downtimeTable with
  | Some a, Some b => Running (mkLive a b meta CONNECTING 0 [] ∅ 1%positive [])
  | _, _ => NotSetUp [ErrNoContainers]
  end.

(** What the browser delivers: the connection opens; a message arrives (only
    an open source dispatches one); the connection fails, for good ([fatal])
    or with a reconnection to follow, the ready state being set before the
    error event is dispatched, and a closed source dispatching nothing; the
    fetches of an update settle; a fade timeout fires. *)
Inductive Event :=
  | SrcOpen
  | SrcMessage (data : string)
  | SrcError (fatal : bool)
  | Settled (o : Fetched)
  | FadeFire (id : positive).

Definition handle (ev : Event) (p : Live) : Live :=
  match ev with
  | SrcOpen =>
      match readyState p with
      | CONNECTING => set_readyState OPEN p
      | _ => p
      end
  | SrcMessage data =>
      match readyState p with
      | OPEN => onmessage data p
      | _ => p
      end
  | SrcError fatal =>
      match readyState p with
      | CLOSED => p
      | _ => onerror (set_readyState (if fatal then CLOSED else CONNECTING) p)
      end
  | Settled o =>
      match in_flight p with
      | O => p
      | S k => updateContent_resume o (set_in_flight k p)
      end
  | FadeFire id =>
      match fades p !! id with
      | None => p
      | Some h =>
          fade_in h
            (mkLive (serverListContainer p) (downtimeTableContainer p)
                    (csrf_meta p) (readyState p) (in_flight p) (sent p)
                    (delete id (fades p)) (next_fade p) (console p))
      end
  end.

Definition step (pg : Page) (ev : Event) : Page :=
  match pg with
  | NotSetUp l => NotSetUp l
  | Running p => Running (handle ev p)
  end.

Definition run (pg : Page) (evs : list Event) : Page := fold_left step evs pg.

(** The handlers of a page that was set up, over a list of events. *)
Definition handles (p : Live) (evs : list Event) : Live :=
  fold_left (fun q ev => handle ev q) evs p.

(** A response pair that lets the update go through. *)
Definition complete (o : Fetched) : Prop :=
  exists h1 h2, o = Responded true true (Some h1) (Some h2).

(** A container is hidden only while a fade timeout is pending. *)
Definition never_stuck_hidden (p : Live) : Prop :=
  (opacity (serverListContainer p) = Some 0 \/
   opacity (downtimeTableContainer p) = Some 0) ->
  exists id h, fades p !! id = Some h.

(** A page with both containers, a token, and an open connection. *)
Definition sample : Live :=
  mkLive (mkContainer "<ul>old</ul>" None) (mkContainer "<table>old</table>" None)
         (Some (Some "tok"%string)) OPEN 0 [] ∅ 1%positive [].

End Live.

(** * Properties *)

#[local] Arguments Nat.leb : simpl never.

Ltac gate_unfold :=
  unfold step, handle, exec, zone1_click, zone2_click, zone3_click,
    burstEvaluation, cpsTick, resetSequence, startTimer, stopTimer,
    overlayTick, fetchSettled, setTimeout, setInterval, register,
    clearInterval, createElement, remove, appendChild, set_overlay_text,
    restyle_z3, set_z3_text, location_reload, location_assign, fetch_sap,
    note_reset, assign, bind, gets, modify, skip, ret, Date_now in *.

(** Case analysis on the two comparisons of the timing test in the goal. *)
Ltac split_window :=
  match goal with
  | |- context [ (?lo <=? ?x) && (?x <=? ?hi) ] =>
      destruct (Z.leb_spec lo x); destruct (Z.leb_spec x hi);
      cbn [andb]; try lia
  end.

(** ** Two attempts *)

(** Clicks at 0, 2500, 6000 and 8500, the arming click at 9000 and 179 burst
    clicks, then the evaluation: stage 6, nothing scheduled, one request in
    flight, no reset. *)
Example good_attempt :
  state (vars succeeded) = 6 /\
  active (timers succeeded) = ∅ /\
  body (dom succeeded) = [ZoneNode zone3] /\
  z3_text (dom succeeded) = LabelOK /\
  nav succeeded = mkNav 1 None 0 [].
Proof. vm_compute. repeat split; reflexivity. Qed.

(** The second click 1800 ms after the first: reset. *)
Example early_second_click :
  nav (step stage1 (Click zone2, at_time 1800)) = mkNav 0 None 1 [MsgStep2 1800] /\
  active (timers (step stage1 (Click zone2, at_time 1800))) = ∅.
Proof. vm_compute. split; reflexivity. Qed.

(** ** Frame lemmas *)

Lemma filterM_world {A} (p : A -> M bool) (l : list A) :
  (forall x c w, snd (p x c w) = w) ->
  forall c w, snd (filterM p l c w) = w.
Proof.
  intros Hp. induction l as [|x l IH]; intros c w; [reflexivity|].
  cbn [filterM]. unfold bind, ret.
  specialize (Hp x c w). destruct (p x c w) as [[b c1] w1]. cbn in Hp. subst w1.
  specialize (IH c1 w). destruct (filterM p l c1 w) as [[r c2] w2].
  exact IH.
Qed.

Lemma filterM_recent (buf : list Z) : forall (c : Clock) (w : World),
  length (fst (fst (filterM (fun ts => now <- Date_now;; ret (now - ts <? 1000))
                            buf c w)))
  = count_true (in_trailing_second c buf).
Proof.
  unfold count_true, in_trailing_second.
  set (p := fun ts : Z => now <- Date_now;; ret (now - ts <? 1000)).
  induction buf as [|ts buf IH]; intros c w; [reflexivity|].
  cbn [filterM imap]. rewrite filter_cons.
  specialize (IH (fun k => c (S k)) w).
  unfold bind at 1. change (p ts c w) with (c 0%nat - ts <? 1000, fun k => c (S k), w).
  unfold bind at 1. destruct (filterM p buf (fun k => c (S k)) w) as [[r c2] w2].
  unfold ret. cbn [fst snd] in *.
  destruct (Z.ltb_spec (c 0%nat - ts) 1000) as [Hlt|Hge].
  - rewrite bool_decide_true by exact Hlt.
    rewrite decide_True by reflexivity. cbn [length]. f_equal. exact IH.
  - rewrite bool_decide_false by lia.
    rewrite decide_False by discriminate. exact IH.
Qed.

Lemma in_trailing_second_steady (now : Z) (buf : list Z) : forall c : Clock,
  (forall k, (k < length buf)%nat -> c k = now) ->
  count_true (in_trailing_second c buf)
  = length (filter (fun ts => now - ts < 1000) buf).
Proof.
  unfold count_true, in_trailing_second.
  induction buf as [|ts buf IH]; intros c Hc; [reflexivity|].
  cbn [imap]. rewrite !filter_cons.
  rewrite (Hc 0%nat) by (cbn; lia).
  assert (IH' := IH (fun k => c (S k))
                    (fun k Hk => Hc (S k) (proj1 (Nat.succ_lt_mono _ _) Hk))).
  destruct (decide (now - ts < 1000)) as [Hlt|Hge].
  - rewrite bool_decide_true by exact Hlt.
    rewrite decide_True by reflexivity. cbn [length]. f_equal. exact IH'.
  - rewrite bool_decide_false by exact Hge.
    rewrite decide_False by discriminate. exact IH'.
Qed.

Lemma burst_click c w :
  state (vars w) = 5 ->
  step w (Click zone3, c)
  = with_vars (set_clickerTimestamps (clickerTimestamps (vars w) ++ [c 0%nat])) w.
Proof.
  destruct w as [[st last buf cps ti el] T d n]. cbn [vars state].
  intros ->. reflexivity.
Qed.

Lemma burst_run (cs : list Clock) : forall w,
  state (vars w) = 5 ->
  state (vars (run w (burst cs))) = 5 /\
  length (clickerTimestamps (vars (run w (burst cs))))
  = (length (clickerTimestamps (vars w)) + length cs)%nat.
Proof.
  induction cs as [|c cs IH]; intros w Hw.
  - cbn. split; [exact Hw | lia].
  - cbn [burst map run fold_left]. fold (burst cs).
    change (fold_left step (burst cs) ?x) with (run x (burst cs)).
    rewrite (burst_click c w Hw).
    destruct (IH (with_vars (set_clickerTimestamps
                  (clickerTimestamps (vars w) ++ [c 0%nat])) w)) as [H5 Hlen].
    { destruct w as [[]]; exact Hw. }
    split; [exact H5|]. rewrite Hlen.
    destruct w as [[st last buf cps ti el] T d n]. cbn.
    rewrite length_app. cbn. lia.
Qed.

(** A tick of the rate interval only sets the label of zone 3. *)
Lemma cpsTick_exec c w :
  exec cpsTick c w
  = exec (set_z3_text (LabelCount (count_true
            (in_trailing_second c (clickerTimestamps (vars w)))))) c w.
Proof.
  unfold exec, cpsTick. unfold bind at 1. unfold gets at 1. unfold bind at 1.
  pose proof (filterM_recent (clickerTimestamps (vars w)) c w) as Hn.
  pose proof (filterM_world
                (fun ts => now <- Date_now;; ret (now - ts <? 1000))
                (clickerTimestamps (vars w))
                (fun x c1 w1 => eq_refl) c w) as Hw.
  destruct (filterM _ (clickerTimestamps (vars w)) c w) as [[r c'] w'].
  cbn [fst snd] in Hn, Hw. subst w'. rewrite <- Hn. reflexivity.
Qed.

Lemma cpsTick_frame c w :
  vars (exec cpsTick c w) = vars w /\
  timers (exec cpsTick c w) = timers w /\
  nav (exec cpsTick c w) = nav w /\
  body (dom (exec cpsTick c w)) = body (dom w) /\
  next_elem (dom (exec cpsTick c w)) = next_elem (dom w).
Proof. rewrite cpsTick_exec. repeat split; reflexivity. Qed.

(** ** The arming click *)

(** C1, as the code has it: a click on zone 3 at stage 4 moves to stage 5,
    discards the previous buffer and then appends its own timestamp, so the
    buffer has exactly that one entry right after the transition; each later
    burst click adds one, and the arming click is part of the tally. *)
Theorem arming_click_is_counted (c : Clock) (w : World) :
  state (vars w) = 4 ->
  let w' := step w (Click zone3, c) in
  state (vars w') = 5 /\
  clickerTimestamps (vars w') = [c 0%nat] /\
  forall cs : list Clock,
    state (vars (run w' (burst cs))) = 5 /\
    length (clickerTimestamps (vars (run w' (burst cs)))) = S (length cs).
Proof.
  intros Hw w'.
  assert (H5 : state (vars w') = 5 /\ clickerTimestamps (vars w') = [c 0%nat]).
  { subst w'. destruct w as [[st last buf cps ti el] T d n].
    cbn [vars state] in Hw. subst st.
    gate_unfold. destruct ti, el; cbn; split; reflexivity. }
  destruct H5 as [H5 Hbuf]. repeat split; try assumption.
  - apply burst_run, H5.
  - destruct (burst_run cs w' H5) as [_ ->]. rewrite Hbuf. reflexivity.
Qed.

Lemma arming_click_is_counted_witness :
  state (vars armed) = 4 /\
  clickerTimestamps (vars (step armed (Click zone3, at_time 9000))) = [9000].
Proof.
  assert (H4 : state (vars armed) = 4) by (vm_compute; reflexivity).
  split; [exact H4|].
  exact (proj1 (proj2 (arming_click_is_counted (at_time 9000) armed H4))).
Defined.

(** C1 as stated fails: after the arming click at 9000 the buffer is not
    empty, and with 179 further clicks the evaluation succeeds. *)
Lemma arming_click_buffer_not_empty :
  state (vars armed) = 4 /\
  length (clickerTimestamps (vars (step armed (Click zone3, at_time 9000)))) = 1%nat /\
  length (burst (map (fun k => at_time (9001 + Z.of_nat k)) (seq 0 179))) = 179%nat /\
  state (vars (bursting 179)) = 5 /\
  state (vars succeeded) = 6.
Proof. vm_compute. repeat split; reflexivity. Qed.

(** ** Timing windows *)

(** C2: at stage 1 (zone 2, window 2000..3500), stage 2 (zone 3, window
    3000..4500) and stage 3 (zone 3, window 2000..3000) a click whose elapsed
    time lies in the window, the two bounds included, advances the stage by
    one without a reset; a click below the lower or above the upper bound
    calls [resetSequence], which requests the reload: the attempt is over,
    the stage variable itself is not advanced. *)
Theorem timing_window_boundaries (c : Clock) (w : World) :
  (state (vars w) = 1 ->
     (2000 <= elapsed c w <= 3500 -> advanced w (step w (Click zone2, c))) /\
     (elapsed c w < 2000 \/ 3500 < elapsed c w ->
        was_reset (MsgStep2 (elapsed c w)) w (step w (Click zone2, c)))) /\
  (state (vars w) = 2 ->
     (3000 <= elapsed c w <= 4500 -> advanced w (step w (Click zone3, c))) /\
     (elapsed c w < 3000 \/ 4500 < elapsed c w ->
        was_reset (MsgBlind (elapsed c w)) w (step w (Click zone3, c)))) /\
  (state (vars w) = 3 ->
     (2000 <= elapsed c w <= 3000 -> advanced w (step w (Click zone3, c))) /\
     (elapsed c w < 2000 \/ 3000 < elapsed c w ->
        was_reset (MsgBlind2 (elapsed c w)) w (step w (Click zone3, c)))).
Proof.
  destruct w as [[st last buf cps ti el] T d n].
  unfold elapsed, advanced, was_reset.
  cbn [vars state lastClickTimestamp nav].
  repeat split; subst st; gate_unfold; cbn.
  all: split_window; cbn; destruct cps, ti, el; reflexivity.
Qed.

Lemma timing_window_boundaries_witness :
  (state (vars stage1) = 1 /\
   advanced stage1 (step stage1 (Click zone2, at_time 2000)) /\
   advanced stage1 (step stage1 (Click zone2, at_time 3500)) /\
   was_reset (MsgStep2 (elapsed (at_time 1999) stage1)) stage1
             (step stage1 (Click zone2, at_time 1999)) /\
   was_reset (MsgStep2 (elapsed (at_time 3501) stage1)) stage1
             (step stage1 (Click zone2, at_time 3501))) /\
  (state (vars stage2) = 2 /\
   advanced stage2 (step stage2 (Click zone3, at_time 5500)) /\
   advanced stage2 (step stage2 (Click zone3, at_time 7000)) /\
   was_reset (MsgBlind (elapsed (at_time 5499) stage2)) stage2
             (step stage2 (Click zone3, at_time 5499)) /\
   was_reset (MsgBlind (elapsed (at_time 7001) stage2)) stage2
             (step stage2 (Click zone3, at_time 7001))) /\
  (state (vars stage3) = 3 /\
   advanced stage3 (step stage3 (Click zone3, at_time 8000)) /\
   advanced stage3 (step stage3 (Click zone3, at_time 9000)) /\
   was_reset (MsgBlind2 (elapsed (at_time 7999) stage3)) stage3
             (step stage3 (Click zone3, at_time 7999)) /\
   was_reset (MsgBlind2 (elapsed (at_time 9001) stage3)) stage3
             (step stage3 (Click zone3, at_time 9001))).
Proof.
  assert (H1 : state (vars stage1) = 1) by (vm_compute; reflexivity).
  assert (H2 : state (vars stage2) = 2) by (vm_compute; reflexivity).
  assert (H3 : state (vars stage3) = 3) by (vm_compute; reflexivity).
  split; [|split].
  - split; [exact H1|].
    split; [apply (proj1 (timing_window_boundaries (at_time 2000) stage1) H1);
            vm_compute; split; discriminate|].
    split; [apply (proj1 (timing_window_boundaries (at_time 3500) stage1) H1);
            vm_compute; split; discriminate|].
    split; [apply (proj1 (timing_window_boundaries (at_time 1999) stage1) H1);
            left; vm_compute; reflexivity|].
    apply (proj1 (timing_window_boundaries (at_time 3501) stage1) H1).
    right; vm_compute; reflexivity.
  - split; [exact H2|].
    split; [apply (proj1 (proj2 (timing_window_boundaries (at_time 5500) stage2)) H2);
            vm_compute; split; discriminate|].
    split; [apply (proj1 (proj2 (timing_window_boundaries (at_time 7000) stage2)) H2);
            vm_compute; split; discriminate|].
    split; [apply (proj1 (proj2 (timing_window_boundaries (at_time 5499) stage2)) H2);
            left; vm_compute; reflexivity|].
    apply (proj1 (proj2 (timing_window_boundaries (at_time 7001) stage2)) H2).
    right; vm_compute; reflexivity.
  - split; [exact H3|].
    split; [apply (proj2 (proj2 (timing_window_boundaries (at_time 8000) stage3)) H3);
            vm_compute; split; discriminate|].
    split; [apply (proj2 (proj2 (timing_window_boundaries (at_time 9000) stage3)) H3);
            vm_compute; split; discriminate|].
    split; [apply (proj2 (proj2 (timing_window_boundaries (at_time 7999) stage3)) H3);
            left; vm_compute; reflexivity|].
    apply (proj2 (proj2 (timing_window_boundaries (at_time 9001) stage3)) H3).
    right; vm_compute; reflexivity.
Defined.

(** ** The burst evaluation *)

(** C3: fired at stage 5, the evaluation reaches stage 6 exactly when the
    buffer holds at least 180 entries. It then cancels the rate interval and
    the overlay interval, unmounts the readout, shows OK and issues one
    request, without any reset; with 179 entries or fewer it calls
    [resetSequence] with the message built from the tally (n out of 180) and
    the stage stays as it was. *)
Theorem burst_threshold (c : Clock) (w : World) :
  state (vars w) = 5 ->
  (state (vars (exec burstEvaluation c w)) = 6 <-> (180 <= tally w)%nat) /\
  ((180 <= tally w)%nat ->
     state (vars (exec burstEvaluation c w)) = 6 /\
     (forall id, cpsUpdateInterval (vars w) = Some id ->
                 active (timers (exec burstEvaluation c w)) !! id = None) /\
     (forall id, timerInterval (vars w) = Some id ->
                 active (timers (exec burstEvaluation c w)) !! id = None) /\
     timerElement (vars (exec burstEvaluation c w)) = None /\
     (forall e, timerElement (vars w) = Some e ->
                TimerDiv e ∉ body (dom (exec burstEvaluation c w))) /\
     z3_text (dom (exec burstEvaluation c w)) = LabelOK /\
     fetches (nav (exec burstEvaluation c w)) = S (fetches (nav w)) /\
     reloads (nav (exec burstEvaluation c w)) = reloads (nav w) /\
     reset_calls (nav (exec burstEvaluation c w)) = reset_calls (nav w)) /\
  ((tally w <= 179)%nat ->
     exec burstEvaluation c w = exec (resetSequence (MsgBurst (tally w))) c w /\
     fetches (nav (exec burstEvaluation c w)) = fetches (nav w) /\
     was_reset (MsgBurst (tally w)) w (exec burstEvaluation c w)).
Proof.
  destruct w as [[st last buf cps ti el] [A N] d n0].
  unfold tally, was_reset.
  cbn [vars state clickerTimestamps cpsUpdateInterval timerInterval timerElement].
  intros ->.
  destruct (Nat.leb_spec 180 (length buf)) as [Hge|Hlt].
  - assert (E : exec burstEvaluation c
                  (mkWorld (mkVars 5 last buf cps ti el) (mkTimers A N) d n0)
                = exec (assign (set_state 6);;
                        clearInterval cps;; stopTimer;;
                        restyle_z3 SkinSuccess;; set_z3_text LabelOK;; fetch_sap) c
                       (mkWorld (mkVars 5 last buf cps ti el) (mkTimers A N) d n0)).
    { unfold exec, burstEvaluation, bind, gets. cbn.
      destruct (Nat.leb_spec 180 (length buf)); [|lia].
      destruct cps; reflexivity. }
    rewrite E. clear E. gate_unfold.
    destruct cps as [i|], ti as [j|], el as [e|]; cbn.
    all: split; [split; [lia|reflexivity]|].
    all: split; [|intros; lia].
    all: intros _; repeat split; try reflexivity; try discriminate.
    all: try (intros ? [= <-]).
    all: try (apply lookup_delete_eq).
    all: try (destruct (decide (i = j)) as [->|Hne];
              [apply lookup_delete_eq
              |rewrite lookup_delete_ne by congruence; apply lookup_delete_eq]).
    all: unfold detach; rewrite list_elem_of_filter; tauto.
  - assert (E : exec burstEvaluation c
                  (mkWorld (mkVars 5 last buf cps ti el) (mkTimers A N) d n0)
                = exec (resetSequence (MsgBurst (length buf))) c
                       (mkWorld (mkVars 5 last buf cps ti el) (mkTimers A N) d n0)).
    { unfold exec, burstEvaluation, bind, gets. cbn.
      destruct (Nat.leb_spec 180 (length buf)); [lia|].
      destruct cps; reflexivity. }
    rewrite E. clear E. gate_unfold.
    destruct cps, ti, el; cbn.
    all: split; [split; [discriminate|lia]|].
    all: split; [intros; lia|].
    all: intros _; repeat split; reflexivity.
Qed.

Lemma burst_threshold_witness :
  state (vars (bursting 179)) = 5 /\ tally (bursting 179) = 180%nat /\
  state (vars (exec burstEvaluation (at_time 12000) (bursting 179))) = 6 /\
  state (vars (bursting 178)) = 5 /\ tally (bursting 178) = 179%nat /\
  was_reset (MsgBurst (tally (bursting 178))) (bursting 178)
            (exec burstEvaluation (at_time 12000) (bursting 178)).
Proof.
  assert (Ha : state (vars (bursting 179)) = 5) by (vm_compute; reflexivity).
  assert (Hb : state (vars (bursting 178)) = 5) by (vm_compute; reflexivity).
  assert (La : tally (bursting 179) = 180%nat) by (vm_compute; reflexivity).
  assert (Lb : tally (bursting 178) = 179%nat) by (vm_compute; reflexivity).
  split; [exact Ha|]. split; [exact La|]. split.
  { apply (proj1 (burst_threshold (at_time 12000) (bursting 179) Ha)).
    rewrite La. apply le_n. }
  split; [exact Hb|]. split; [exact Lb|].
  apply (proj2 (proj2 (burst_threshold (at_time 12000) (bursting 178) Hb))).
  rewrite Lb. apply le_n.
Defined.

(** C6: the callback tests the stage when it runs. At any stage other than
    5 it leaves the world as it is, and the firing changes nothing but the
    timer table, which loses the entry that fired; at stage 5 it decides,
    either reaching stage 6 or calling [resetSequence]. *)
Theorem burst_evaluation_rechecks_stage (c : Clock) (w : World) :
  (state (vars w) <> 5 -> exec burstEvaluation c w = w) /\
  (forall id, state (vars w) <> 5 -> active (timers w) !! id = Some BurstEval ->
     step w (Fire id, c)
     = with_timers (fun T => mkTimers (delete id (active T)) (next_id T)) w) /\
  (state (vars w) = 5 ->
     state (vars (exec burstEvaluation c w)) = 6 \/
     reloads (nav (exec burstEvaluation c w)) = S (reloads (nav w))).
Proof.
  destruct w as [[st last buf cps ti el] T d n].
  cbn [vars state timers]. split; [|split].
  - intros Hne. unfold exec, burstEvaluation, bind, gets. cbn.
    destruct (Z.eqb_spec st 5); [contradiction|reflexivity].
  - intros id Hne Hid. unfold step, handle, exec, bind, gets. cbn.
    rewrite Hid. unfold burstEvaluation, bind, gets, modify. cbn.
    destruct (Z.eqb_spec st 5); [contradiction|reflexivity].
  - intros ->. gate_unfold. cbn.
    destruct (Nat.leb_spec 180 (length buf)); destruct cps, ti, el; cbn; auto.
Qed.

Lemma burst_evaluation_rechecks_stage_witness :
  state (vars succeeded) <> 5 /\
  exec burstEvaluation (at_time 12500) succeeded = succeeded.
Proof.
  assert (H : state (vars succeeded) <> 5) by (vm_compute; discriminate).
  split; [exact H|].
  exact (proj1 (burst_evaluation_rechecks_stage (at_time 12500) succeeded) H).
Defined.

(** ** The rate display *)

(** C9: a tick of the rate interval shows the number of buffer entries [ts]
    with [Date.now() - ts < 1000], the clock being read as each entry is
    examined; when the clock shows [now] for all of these reads this is the
    number of entries with [now - ts < 1000]. The tick changes the label of
    zone 3 and nothing else: variables (stage and buffer among them), timer
    table and navigation stay as they were. *)
Theorem rate_display_tick (c : Clock) (w : World) :
  let buf := clickerTimestamps (vars w) in
  let w' := exec cpsTick c w in
  z3_text (dom w') = LabelCount (count_true (in_trailing_second c buf)) /\
  (forall now, (forall k, (k < length buf)%nat -> c k = now) ->
     z3_text (dom w')
     = LabelCount (length (filter (fun ts => now - ts < 1000) buf))) /\
  vars w' = vars w /\ timers w' = timers w /\ nav w' = nav w /\
  body (dom w') = body (dom w).
Proof.
  cbn zeta. rewrite cpsTick_exec.
  unfold exec, set_z3_text, modify. cbn.
  split; [reflexivity|]. split; [|repeat split; reflexivity].
  intros now Hnow. f_equal. apply in_trailing_second_steady, Hnow.
Qed.

Lemma rate_display_tick_witness :
  z3_text (dom (exec cpsTick (at_time 9950) (bursting 3)))
  = LabelCount (length (filter (fun ts => 9950 - ts < 1000)
                               (clickerTimestamps (vars (bursting 3))))).
Proof.
  apply (proj1 (proj2 (rate_display_tick (at_time 9950) (bursting 3)))).
  intros k _. reflexivity.
Defined.

(** ** Clicks that do not match the stage *)

(** C10: when the stage test of a zone's handler fails, a click on that zone
    leaves the whole world as it was: variables, buffer, timer table,
    document, and no reset or reload. *)
Theorem mismatched_click_is_noop (z : Zone) (c : Clock) (w : World) :
  guard z (state (vars w)) = false -> step w (Click z, c) = w.
Proof.
  destruct w as [v T d n].
  destruct z; cbn [guard vars]; intros H; gate_unfold; cbn.
  - rewrite H. reflexivity.
  - rewrite H. reflexivity.
  - apply orb_false_elim in H as [H H5]. apply orb_false_elim in H as [H H4].
    apply orb_false_elim in H as [H2 H3]. rewrite H2, H3, H4, H5. reflexivity.
Qed.

Lemma mismatched_click_is_noop_witness :
  guard zone3 (state (vars succeeded)) = false /\
  step succeeded (Click zone3, at_time 12500) = succeeded.
Proof.
  assert (H : guard zone3 (state (vars succeeded)) = false)
    by (vm_compute; reflexivity).
  split; [exact H|].
  exact (mismatched_click_is_noop zone3 (at_time 12500) succeeded H).
Defined.

(** ** Monotonicity of the stage *)

Lemma cpsTick_vars c w : vars (exec cpsTick c w) = vars w.
Proof. apply cpsTick_frame. Qed.

Lemma resetSequence_state m c w :
  state (vars (exec (resetSequence m) c w)) = state (vars w).
Proof.
  destruct w as [[st last buf cps ti el] T d n].
  gate_unfold. destruct cps, ti, el; reflexivity.
Qed.

Lemma fetchSettled_state o c w :
  state (vars (exec (fetchSettled o) c w)) = state (vars w).
Proof.
  destruct o as [| |d]; try apply resetSequence_state.
  destruct d; try apply resetSequence_state; unfold fetchSettled.
  all: destruct (get_path _) as [v|]; [destruct (truthy (Some v))|];
       reflexivity.
Qed.

Lemma step_state w ev :
  stage_move (state (vars w)) (state (vars (step w ev))).
Proof.
  destruct ev as [[z|id|o] c]; unfold step; cbn [fst snd handle].
  - destruct w as [[st last buf cps ti el] T d n]. cbn [vars state].
    destruct z; gate_unfold; cbn.
    + destruct (Z.eqb_spec st 0); [subst; cbn|left; reflexivity].
      destruct ti, el; cbn; right; lia.
    + destruct (Z.eqb_spec st 1); [subst; cbn|left; reflexivity].
      split_window; cbn; destruct cps, ti, el; cbn; unfold stage_move; lia.
    + destruct (Z.eqb_spec st 2); [subst; cbn|].
      { split_window; cbn; destruct cps, ti, el; cbn; unfold stage_move; lia. }
      destruct (Z.eqb_spec st 3); [subst; cbn|].
      { split_window; cbn; destruct cps, ti, el; cbn; unfold stage_move; lia. }
      destruct (Z.eqb_spec st 4); [subst; cbn|].
      { destruct ti, el; cbn; right; lia. }
      destruct (Z.eqb_spec st 5); [subst|]; cbn; left; reflexivity.
  - unfold exec. unfold bind at 1. unfold gets at 1.
    destruct (active (timers w) !! id) as [[s dur| |]|] eqn:Hid.
    + destruct w as [[st last buf cps ti el] T d n].
      gate_unfold. cbn.
      destruct (dur <=? c 0%nat - s); destruct ti, el; left; reflexivity.
    + destruct w as [[st last buf cps ti el] T d n]. cbn [vars state].
      gate_unfold. cbn.
      destruct (Z.eqb_spec st 5); [subst; cbn|left; reflexivity].
      destruct (180 <=? length buf)%nat; destruct cps, ti, el; cbn;
        unfold stage_move; lia.
    + left. change (state (vars (exec cpsTick c w)) = state (vars w)).
      rewrite cpsTick_vars. reflexivity.
    + left; reflexivity.
  - unfold exec. unfold bind at 1. unfold gets at 1.
    destruct (fetches (nav w)) as [|k]; [left; reflexivity|].
    unfold bind, modify. left.
    match goal with
    | |- state (vars (snd (fetchSettled o ?c0 ?w0))) = _ =>
        change (state (vars (exec (fetchSettled o) c0 w0)) = state (vars w0))
    end.
    apply fetchSettled_state.
Qed.

Lemma run_app w evs evs' : run w (evs ++ evs') = run (run w evs) evs'.
Proof. unfold run. apply fold_left_app. Qed.

Lemma run_state_le (evs : list (Event * Clock)) : forall w,
  state (vars w) <= state (vars (run w evs)).
Proof.
  induction evs as [|ev evs IH]; intros w; cbn; [lia|].
  specialize (IH (step w ev)). unfold run in IH.
  destruct (step_state w ev) as [H|[H _]]; lia.
Qed.

Lemma run_state_range (evs : list (Event * Clock)) : forall w,
  0 <= state (vars w) <= 6 -> 0 <= state (vars (run w evs)) <= 6.
Proof.
  induction evs as [|ev evs IH]; intros w Hw; cbn; [exact Hw|].
  apply IH. destruct (step_state w ev) as [H|[H ?]]; lia.
Qed.

(** C7: a turn of the event loop leaves the stage as it is or raises it by
    exactly one (and only from a stage between 0 and 5), so along any run the
    stage never decreases and, from page load, stays between 0 and 6;
    [resetSequence] itself does not assign the stage: the return to 0 is the
    reload it requests. *)
Theorem stage_never_decreases :
  (forall w ev, stage_move (state (vars w)) (state (vars (step w ev)))) /\
  (forall w evs, state (vars w) <= state (vars (run w evs))) /\
  (forall evs evs',
     0 <= state (vars (run initial evs)) /\
     state (vars (run initial evs)) <= state (vars (run initial (evs ++ evs'))) /\
     state (vars (run initial (evs ++ evs'))) <= 6) /\
  (forall m c w,
     state (vars (exec (resetSequence m) c w)) = state (vars w) /\
     reloads (nav (exec (resetSequence m) c w)) = S (reloads (nav w))).
Proof.
  split; [exact step_state|]. split; [intros; apply run_state_le|]. split.
  - intros evs evs'. rewrite run_app.
    pose proof (run_state_le evs' (run initial evs)).
    pose proof (run_state_range evs initial ltac:(cbn; lia)).
    pose proof (run_state_range evs' (run initial evs) ltac:(assumption)).
    lia.
  - intros m c w. split; [apply resetSequence_state|].
    destruct w as [[st last buf cps ti el] T d n].
    gate_unfold. destruct cps, ti, el; reflexivity.
Qed.

(** ** Invariants of the reachable worlds *)

Ltac learn p :=
  let T := type of p in
  lazymatch goal with
  | _ : T |- _ => fail
  | _ => pose proof p
  end.

Ltac map_hyps :=
  repeat match goal with
  | H : context [ (<[?i := _]> _) !! ?j ] |- _ =>
      destruct (decide (i = j));
      [ subst; rewrite lookup_insert_eq in H
      | rewrite lookup_insert_ne in H by assumption ]
  | H : context [ (delete ?i _) !! ?j ] |- _ =>
      destruct (decide (i = j));
      [ subst; rewrite lookup_delete_eq in H
      | rewrite lookup_delete_ne in H by assumption ]
  | H : ∅ !! _ = Some _ |- _ =>
      rewrite lookup_empty in H
  end.

(** Everything the invariant says about the lookups at hand. *)
Ltac saturate :=
  repeat match goal with
  | I : timers_inv (mkWorld (mkVars _ _ _ _ _ _) (mkTimers ?A _) _ _),
    H : ?A !! ?j = Some BurstEval |- _ =>
      first [ learn (inv_burst_stage _ I j H) | learn (inv_fresh _ I j _ H) ]
  | I : timers_inv (mkWorld (mkVars _ _ _ _ _ _) (mkTimers ?A _) _ _),
    H : ?A !! ?j = Some CpsTick |- _ =>
      first [ learn (inv_cps_stage _ I j H) | learn (inv_cps_handle _ I j H)
            | learn (inv_fresh _ I j _ H) ]
  | I : timers_inv (mkWorld (mkVars _ _ _ _ _ _) (mkTimers ?A _) _ _),
    H : ?A !! ?j = Some (OverlayTick ?s ?d) |- _ =>
      first [ learn (inv_overlay_handle _ I j s d H) | learn (inv_fresh _ I j _ H) ]
  | I : timers_inv (mkWorld (mkVars _ _ _ _ _ _) (mkTimers ?A _) _ _),
    H : ?A !! ?j = Some ?t |- _ =>
      learn (inv_fresh _ I j t H)
  | I : timers_inv (mkWorld (mkVars _ _ _ _ (Some ?i) _) (mkTimers ?A _) _ _)
    |- _ => learn (inv_handle_fresh _ I i eq_refl)
  | I : timers_inv (mkWorld (mkVars _ _ _ _ (Some ?i) _) (mkTimers ?A _) _ _),
    H : ?A !! ?i = Some ?t |- _ =>
      learn (inv_handle_kind _ I i t eq_refl H)
  | I : timers_inv (mkWorld (mkVars _ _ _ _ _ _) (mkTimers ?A _) _ _),
    H1 : ?A !! ?i = Some BurstEval, H2 : ?A !! ?j = Some BurstEval |- _ =>
      learn (inv_burst_unique _ I i j H1 H2)
  | I : timers_inv (mkWorld _ _ _ ?n), H : (0 < fetches ?n)%nat |- _ =>
      learn (inv_fetch_done _ I H)
  | I : timers_inv (mkWorld (mkVars ?st _ _ _ _ _) _ _ _), H : ?st = 6 |- _ =>
      learn (inv_done_quiet _ I H)
  end;
  cbn [vars timers nav state cpsUpdateInterval timerInterval active next_id
       fetches is_overlay] in *.

Ltac inv_goal :=
  intros; map_hyps; saturate; simplify_eq;
  rewrite ?delete_empty;
  first [ done | lia | congruence | (exfalso; lia) ].

Lemma zone1_click_timers_inv c w :
  timers_inv w -> timers_inv (exec zone1_click c w).
Proof.
  destruct w as [[st last buf cps ti el] [A N] d n]. intros I.
  gate_unfold. cbn.
  destruct (Z.eqb_spec st 0); [subst; cbn|exact I].
  destruct ti, el; cbn; constructor; cbn; inv_goal.
Qed.

Lemma zone2_click_timers_inv c w :
  timers_inv w -> timers_inv (exec zone2_click c w).
Proof.
  destruct w as [[st last buf cps ti el] [A N] d n]. intros I.
  gate_unfold. cbn.
  destruct (Z.eqb_spec st 1); [subst; cbn|exact I].
  split_window; cbn; destruct cps, ti, el; cbn; constructor; cbn; inv_goal.
Qed.

Lemma zone3_click_timers_inv c w :
  timers_inv w -> timers_inv (exec zone3_click c w).
Proof.
  destruct w as [[st last buf cps ti el] [A N] d n]. intros I.
  gate_unfold. cbn.
  destruct (Z.eqb_spec st 2); [subst; cbn|].
  { split_window; cbn; destruct cps, ti, el; cbn; constructor; cbn; inv_goal. }
  destruct (Z.eqb_spec st 3); [subst; cbn|].
  { split_window; cbn; destruct cps, ti, el; cbn; constructor; cbn; inv_goal. }
  destruct (Z.eqb_spec st 4); [subst; cbn|].
  { destruct ti, el; cbn; constructor; cbn; inv_goal. }
  destruct (Z.eqb_spec st 5); [subst; cbn|exact I].
  cbn. destruct I; constructor; cbn in *; assumption.
Qed.


Lemma timers_inv_frame w w' :
  vars w' = vars w -> timers w' = timers w -> nav w' = nav w ->
  timers_inv w -> timers_inv w'.
Proof.
  intros Hv Ht Hn [].
  constructor; rewrite ?Hv, ?Ht, ?Hn; assumption.
Qed.

Ltac empty_table :=
  intros; apply map_empty; intros ?k;
  match goal with
  | |- ?m !! ?k = None =>
      destruct (m !! k) as [[?s ?dur| |]|] eqn:?Hk; [| | |reflexivity]
  end;
  map_hyps; saturate; simplify_eq; done.

Lemma fire_timers_inv id c w :
  timers_inv w -> timers_inv (exec (handle (Fire id)) c w).
Proof.
  intros I. unfold handle, exec. unfold bind at 1. unfold gets at 1.
  destruct (active (timers w) !! id) as [[s dur| |]|] eqn:Hid; [| | |exact I].
  - destruct w as [[st last buf cps ti el] [A N] d n].
    cbn [timers active] in Hid. gate_unfold. cbn.
    destruct (dur <=? c 0%nat - s); destruct ti, el; cbn;
      constructor; cbn; inv_goal.
  - destruct w as [[st last buf cps ti el] [A N] d n].
    cbn [timers active] in Hid.
    assert (st = 5) by (saturate; assumption). subst st.
    gate_unfold. cbn.
    destruct (180 <=? length buf)%nat; destruct cps, ti, el; cbn;
      constructor; cbn; first [ empty_table | inv_goal ].
  - apply (timers_inv_frame w); [apply cpsTick_frame..|exact I].
Qed.

Lemma settle_timers_inv o c w :
  timers_inv w -> timers_inv (exec (handle (Settle o)) c w).
Proof.
  intros I. unfold handle, exec. unfold bind at 1. unfold gets at 1.
  destruct w as [[st last buf cps ti el] [A N] d [f h r rc]].
  cbn [nav fetches]. destruct f as [|k]; [exact I|].
  assert (st = 6) by (apply (inv_fetch_done _ I); cbn; lia). subst st.
  assert (A = ∅) by (apply (inv_done_quiet _ I); reflexivity). subst A.
  destruct o as [| |dd]; [| |destruct dd]; unfold fetchSettled.
  all: try (destruct (get_path _) as [v|]; [destruct (truthy (Some v))|]).
  all: gate_unfold; cbn; destruct cps, ti, el; cbn.
  all: constructor; cbn; intros; rewrite ?delete_empty in *;
       try rewrite lookup_empty in *; saturate; simplify_eq;
       first [ done | lia ].
Qed.

Lemma step_timers_inv w ev : timers_inv w -> timers_inv (step w ev).
Proof.
  destruct ev as [[[]|id|o] c]; unfold step; cbn [fst snd].
  - apply zone1_click_timers_inv.
  - apply zone2_click_timers_inv.
  - apply zone3_click_timers_inv.
  - apply fire_timers_inv.
  - apply settle_timers_inv.
Qed.

Lemma initial_timers_inv : timers_inv initial.
Proof.
  constructor; cbn; intros; try rewrite lookup_empty in *; first [ done | lia ].
Qed.

Lemma reachable_timers_inv w : reachable w -> timers_inv w.
Proof.
  induction 1 as [|w ev _ IH]; [apply initial_timers_inv|].
  apply step_timers_inv, IH.
Qed.

Lemma reachable_run w evs : reachable w -> reachable (run w evs).
Proof.
  revert w. induction evs as [|ev evs IH]; intros w Hw; [exact Hw|].
  apply IH. apply reach_step, Hw.
Qed.

Lemma cons_neq {A} (x : A) (l : list A) : l <> x :: l.
Proof. intros H. apply (f_equal length) in H. cbn in H. lia. Qed.

(** ** Reset *)

(** [resetSequence] on its own clears the two intervals whose handles the
    script keeps; the handle of the burst timeout is not kept, and an entry
    for it would stay. That none is pending whenever reset runs is the
    invariant above. *)
Remark resetSequence_keeps_other_entries m c w id t :
  active (timers w) !! id = Some t ->
  cpsUpdateInterval (vars w) <> Some id ->
  timerInterval (vars w) <> Some id ->
  active (timers (exec (resetSequence m) c w)) !! id = Some t.
Proof.
  destruct w as [[st last buf cps ti el] [A N] d n]. cbn [vars timers active
    cpsUpdateInterval timerInterval].
  intros Hid Hc Ht. gate_unfold.
  destruct cps as [i|], ti as [j|], el; cbn;
    rewrite ?lookup_delete_ne by congruence; exact Hid.
Qed.

(** The world in which [window.location.reload()] is called. *)
(** The world in which [window.location.reload()] is called. *)
Ltac reload_point :=
  right; unfold reloaded_quiet;
  first
    [ eexists; split; [|reflexivity]
    | match goal with
      | |- exists w1, _ /\ mkWorld ?V ?T ?D (mkNav ?f ?h (S ?r) ?rc) = _ =>
          exists (mkWorld V T D (mkNav f h r rc)); split; [|reflexivity]
      end ];
  cbn.

Ltac quiet := first [ left; reflexivity | reload_point; empty_table ].

Lemma step_turn_quiet w ev c :
  timers_inv w -> turn_quiet c w (step w (ev, c)).
Proof.
  intros I. unfold step. cbn [fst snd].
  destruct ev as [[]|id|o]; cbn [handle].
  - destruct w as [[st last buf cps ti el] [A N] d [f h r rc]].
    gate_unfold. cbn.
    destruct (Z.eqb_spec st 0); [subst; cbn|left; reflexivity].
    destruct ti, el; left; reflexivity.
  - destruct w as [[st last buf cps ti el] [A N] d [f h r rc]].
    gate_unfold. cbn.
    destruct (Z.eqb_spec st 1); [subst; cbn|left; reflexivity].
    split_window; cbn; destruct cps, ti, el; cbn; quiet.
  - destruct w as [[st last buf cps ti el] [A N] d [f h r rc]].
    gate_unfold. cbn.
    destruct (Z.eqb_spec st 2); [subst; cbn|].
    { split_window; cbn; destruct cps, ti, el; cbn; quiet. }
    destruct (Z.eqb_spec st 3); [subst; cbn|].
    { split_window; cbn; destruct cps, ti, el; cbn; quiet. }
    destruct (Z.eqb_spec st 4); [subst; cbn|].
    { destruct ti, el; left; reflexivity. }
    destruct (Z.eqb_spec st 5); [subst|]; left; reflexivity.
  - unfold exec. unfold bind at 1. unfold gets at 1.
    destruct (active (timers w) !! id) as [[s dur| |]|] eqn:Hid.
    + destruct w as [[st last buf cps ti el] [A N] d [f h r rc]].
      gate_unfold. cbn.
      destruct (dur <=? c 0%nat - s); destruct ti, el; left; reflexivity.
    + destruct w as [[st last buf cps ti el] [A N] d [f h r rc]].
      cbn [timers active] in Hid.
      assert (st = 5) by (saturate; assumption). subst st.
      gate_unfold. cbn.
      destruct (180 <=? length buf)%nat; destruct cps, ti, el; cbn; quiet.
    + left. change (reset_calls (nav (exec cpsTick c w)) = reset_calls (nav w)).
      f_equal. apply cpsTick_frame.
    + left; reflexivity.
  - unfold exec. unfold bind at 1. unfold gets at 1.
    destruct w as [[st last buf cps ti el] [A N] d [f h r rc]].
    cbn [nav fetches]. destruct f as [|k]; [left; reflexivity|].
    assert (st = 6) by (apply (inv_fetch_done _ I); cbn; lia). subst st.
    assert (A = ∅) by (apply (inv_done_quiet _ I); reflexivity). subst A.
    destruct o as [| |dd]; [| |destruct dd]; unfold fetchSettled.
    all: try (destruct (get_path _) as [v|]; [destruct (truthy (Some v))|]).
    all: gate_unfold; cbn; destruct cps, ti, el; cbn.
    all: first [ left; reflexivity
               | reload_point; rewrite ?delete_empty; reflexivity ].
Qed.

(** C5: in every world the page can reach, a turn of the event loop in which
    [resetSequence] is called ends with an empty timer table: the overlay
    interval and the rate interval are cleared through their handles, and the
    burst timeout is not pending at any point where reset can run (it has
    fired, or was never set). The table is already empty when
    [window.location.reload()] is called. *)
Theorem reset_leaves_no_timer (w : World) (ev : Event) (c : Clock) (m : Message) :
  reachable w ->
  reset_calls (nav (step w (ev, c))) = m :: reset_calls (nav w) ->
  active (timers (step w (ev, c))) = ∅ /\
  reloaded_quiet c (step w (ev, c)).
Proof.
  intros Hr Hm. apply reachable_timers_inv in Hr.
  destruct (step_turn_quiet w ev c Hr) as [Hsame|Hq].
  - rewrite Hsame in Hm. exfalso. exact (cons_neq _ _ Hm).
  - split; [|exact Hq]. destruct Hq as [w1 [H1 ->]].
    destruct w1 as [V T D [f h r rc]]. exact H1.
Qed.

Lemma reset_leaves_no_timer_witness :
  reachable (bursting 2) /\
  active (timers (bursting 2)) !! 4%positive = Some (OverlayTick 9000 3000) /\
  active (timers (bursting 2)) !! 5%positive = Some BurstEval /\
  active (timers (bursting 2)) !! 6%positive = Some CpsTick /\
  reset_calls (nav (step (bursting 2) (Fire 5%positive, at_time 12000)))
  = MsgBurst 3 :: reset_calls (nav (bursting 2)) /\
  active (timers (step (bursting 2) (Fire 5%positive, at_time 12000))) = ∅.
Proof.
  assert (Hr : reachable (bursting 2)).
  { apply reachable_run. repeat apply reach_step. apply reach_initial. }
  assert (Hm : reset_calls (nav (step (bursting 2) (Fire 5%positive, at_time 12000)))
               = MsgBurst 3 :: reset_calls (nav (bursting 2)))
    by (vm_compute; reflexivity).
  split; [exact Hr|].
  split; [vm_compute; reflexivity|].
  split; [vm_compute; reflexivity|].
  split; [vm_compute; reflexivity|].
  split; [exact Hm|].
  exact (proj1 (reset_leaves_no_timer _ _ _ _ Hr Hm)).
Defined.

(** ** The overlay *)

#[local] Arguments overlay_nodes : simpl never.
#[local] Arguments detach : simpl never.

Lemma overlay_nodes_app l1 l2 :
  overlay_nodes (l1 ++ l2) = overlay_nodes l1 ++ overlay_nodes l2.
Proof. apply omap_app. Qed.

Lemma overlay_nodes_detach_zone z l :
  overlay_nodes (detach (ZoneNode z) l) = overlay_nodes l.
Proof.
  unfold detach. induction l as [|[z'|e] l IH]; [reflexivity| |].
  - rewrite filter_cons. destruct (decide (ZoneNode z' <> ZoneNode z)); exact IH.
  - rewrite filter_cons, decide_True by discriminate.
    change (e :: overlay_nodes (filter (fun x => x <> ZoneNode z) l)
            = e :: overlay_nodes l).
    f_equal. exact IH.
Qed.

Lemma overlay_nodes_cons_timer e l :
  overlay_nodes (TimerDiv e :: l) = e :: overlay_nodes l.
Proof. reflexivity. Qed.

Lemma overlay_nodes_cons_zone z l :
  overlay_nodes (ZoneNode z :: l) = overlay_nodes l.
Proof. reflexivity. Qed.

Lemma overlay_nodes_detach_timer e l :
  overlay_nodes (detach (TimerDiv e) l)
  = filter (fun x => x <> e) (overlay_nodes l).
Proof.
  unfold detach.
  induction l as [|[z'|e'] l IH]; [reflexivity| |].
  - rewrite filter_cons, decide_True by discriminate.
    rewrite !overlay_nodes_cons_zone. exact IH.
  - rewrite filter_cons, overlay_nodes_cons_timer, filter_cons.
    destruct (decide (e' = e)) as [->|Hne].
    + destruct (decide (TimerDiv e <> TimerDiv e)) as [H|_]; [congruence|].
      destruct (decide (e <> e)) as [H|_]; [congruence|]. exact IH.
    + destruct (decide (TimerDiv e' <> TimerDiv e)) as [_|H];
        [|exfalso; apply H; congruence].
      destruct (decide (e' <> e)) as [_|H]; [|contradiction].
      rewrite overlay_nodes_cons_timer. f_equal. exact IH.
Qed.

Ltac overlay_goal I :=
  cbn; intros;
  repeat first [ rewrite overlay_nodes_app
               | rewrite overlay_nodes_detach_zone
               | rewrite overlay_nodes_detach_timer
               | rewrite overlay_nodes_cons_timer
               | rewrite overlay_nodes_cons_zone ];
  let HB := fresh "HB" in
  pose proof (inv_overlay_nodes _ I) as HB; cbn in HB; rewrite ?HB;
  try (pose proof (inv_elem_fresh _ I _ eq_refl));
  cbn in *; rewrite ?filter_cons, ?filter_nil;
  repeat case_decide; simplify_eq; cbn;
  first [ done | lia | congruence ].

Lemma stopTimer_overlay_inv c w : overlay_inv w -> overlay_inv (exec stopTimer c w).
Proof.
  destruct w as [[st last buf cps ti el] [A N] [B ne ot sk tx] n]. intros I.
  gate_unfold. destruct ti, el; cbn; constructor; overlay_goal I.
Qed.

Lemma click_overlay_inv z c w :
  overlay_inv w -> overlay_inv (step w (Click z, c)).
Proof.
  destruct w as [[st last buf cps ti el] [A N] [B ne ot sk tx] n]. intros I.
  unfold step. cbn [fst snd]. destruct z; cbn [handle]; gate_unfold; cbn.
  - destruct (Z.eqb_spec st 0); [subst; cbn|exact I].
    destruct ti, el; cbn; constructor; overlay_goal I.
  - destruct (Z.eqb_spec st 1); [subst; cbn|exact I].
    split_window; cbn; destruct cps, ti, el; cbn; constructor; overlay_goal I.
  - destruct (Z.eqb_spec st 2); [subst; cbn|].
    { split_window; cbn; destruct cps, ti, el; cbn; constructor; overlay_goal I. }
    destruct (Z.eqb_spec st 3); [subst; cbn|].
    { split_window; cbn; destruct cps, ti, el; cbn; constructor; overlay_goal I. }
    destruct (Z.eqb_spec st 4); [subst; cbn|].
    { destruct ti, el; cbn; constructor; overlay_goal I. }
    destruct (Z.eqb_spec st 5); [subst; cbn|exact I].
    destruct I; constructor; cbn in *; assumption.
Qed.

Lemma overlay_inv_frame w w' :
  vars w' = vars w -> body (dom w') = body (dom w) ->
  next_elem (dom w') = next_elem (dom w) ->
  overlay_inv w -> overlay_inv w'.
Proof.
  intros Hv Hb Hn [].
  constructor; rewrite ?Hv, ?Hb, ?Hn; assumption.
Qed.

Lemma fire_overlay_inv id c w :
  overlay_inv w -> overlay_inv (step w (Fire id, c)).
Proof.
  intros I. unfold step, handle, exec. cbn [fst snd].
  unfold bind at 1. unfold gets at 1.
  destruct (active (timers w) !! id) as [[s dur| |]|] eqn:Hid; [| | |exact I].
  - destruct w as [[st last buf cps ti el] [A N] [B ne ot sk tx] n].
    gate_unfold. cbn.
    destruct (dur <=? c 0%nat - s); destruct ti, el; cbn;
      constructor; overlay_goal I.
  - destruct w as [[st last buf cps ti el] [A N] [B ne ot sk tx] n].
    gate_unfold. cbn.
    destruct (Z.eqb_spec st 5); [subst; cbn|].
    2:{ destruct I; constructor; cbn in *; assumption. }
    destruct (180 <=? length buf)%nat; destruct cps, ti, el; cbn;
      constructor; overlay_goal I.
  - apply (overlay_inv_frame w); [apply cpsTick_frame..|exact I].
Qed.

Lemma settle_overlay_inv o c w :
  overlay_inv w -> overlay_inv (step w (Settle o, c)).
Proof.
  intros I. unfold step, handle, exec. cbn [fst snd].
  unfold bind at 1. unfold gets at 1.
  destruct w as [[st last buf cps ti el] [A N] [B ne ot sk tx] [f h r rc]].
  cbn [nav fetches]. destruct f as [|k]; [exact I|].
  destruct o as [| |dd]; [| |destruct dd]; unfold fetchSettled.
  all: try (destruct (get_path _) as [v|]; [destruct (truthy (Some v))|]).
  all: gate_unfold; cbn; destruct cps, ti, el; cbn.
  all: constructor; overlay_goal I.
Qed.

Lemma reachable_overlay_inv w : reachable w -> overlay_inv w.
Proof.
  induction 1 as [|w [[z|id|o] c] _ IH].
  - constructor; cbn; [reflexivity|discriminate].
  - apply click_overlay_inv, IH.
  - apply fire_overlay_inv, IH.
  - apply settle_overlay_inv, IH.
Qed.

Lemma stopTimer_idle c w : overlay_idle w -> exec stopTimer c w = w.
Proof.
  destruct w as [[st last buf cps ti el] [A N] d n].
  unfold overlay_idle. cbn [vars timers active timerElement timerInterval].
  intros [-> Hti]. gate_unfold. unfold with_timers.
  destruct ti as [id|]; cbn; [|reflexivity].
  rewrite (delete_id A id) by (apply Hti; reflexivity). reflexivity.
Qed.

Lemma stopTimer_idempotent c c' w :
  exec stopTimer c' (exec stopTimer c w) = exec stopTimer c w.
Proof.
  destruct w as [[st last buf cps ti el] [A N] [B ne ot sk tx] n].
  gate_unfold. unfold with_timers, with_vars, with_dom.
  destruct ti as [id|], el as [e|]; cbn;
    rewrite ?delete_delete_eq; reflexivity.
Qed.

Lemma startTimer_replaces dur c w :
  handles_issued w ->
  (forall e, timerElement (vars w) = Some e ->
             TimerDiv e ∉ body (dom (exec (startTimer dur) c w))) /\
  (forall id, timerInterval (vars w) = Some id ->
              active (timers (exec (startTimer dur) c w)) !! id = None) /\
  timerElement (vars (exec (startTimer dur) c w)) = Some (next_elem (dom w)) /\
  TimerDiv (next_elem (dom w)) ∈ body (dom (exec (startTimer dur) c w)) /\
  timerInterval (vars (exec (startTimer dur) c w)) = Some (next_id (timers w)) /\
  active (timers (exec (startTimer dur) c w)) !! next_id (timers w)
  = Some (OverlayTick (c 0%nat) dur).
Proof.
  destruct w as [[st last buf cps ti el] [A N] [B ne ot sk tx] n].
  unfold handles_issued.
  cbn [vars timers dom active next_id next_elem timerElement timerInterval].
  intros [Hid He]. gate_unfold.
  destruct ti as [id|], el as [e|]; cbn.
  all: repeat split; try reflexivity; try discriminate.
  all: try (intros ? [= <-]).
  all: try (specialize (Hid _ eq_refl)); try (specialize (He _ eq_refl)).
  all: try (rewrite lookup_insert_ne by lia; apply lookup_delete_eq).
  all: try apply lookup_insert_eq.
  all: unfold detach; rewrite elem_of_app, ?list_elem_of_filter,
         list_elem_of_singleton.
  all: try (right; reflexivity).
  all: intros [[_ [H _]]|H]; [apply H; reflexivity|simplify_eq; lia].
Qed.

(** C8: in every world the page can reach at most one readout is mounted
    and at most one overlay interval is active. [startTimer] unmounts the
    readout held before and cancels the interval held before, then mounts a
    new readout and registers a new interval. [stopTimer] leaves a world
    with no active overlay unchanged, and a second call changes nothing. *)
Theorem single_overlay :
  (forall w, reachable w ->
     handles_issued w /\
     (length (overlay_nodes (body (dom w))) <= 1)%nat /\
     (forall i j t t',
        active (timers w) !! i = Some t -> is_overlay t ->
        active (timers w) !! j = Some t' -> is_overlay t' -> i = j)) /\
  (forall dur c w, handles_issued w ->
     (forall e, timerElement (vars w) = Some e ->
                TimerDiv e ∉ body (dom (exec (startTimer dur) c w))) /\
     (forall id, timerInterval (vars w) = Some id ->
                 active (timers (exec (startTimer dur) c w)) !! id = None) /\
     timerElement (vars (exec (startTimer dur) c w)) = Some (next_elem (dom w)) /\
     TimerDiv (next_elem (dom w)) ∈ body (dom (exec (startTimer dur) c w)) /\
     timerInterval (vars (exec (startTimer dur) c w)) = Some (next_id (timers w)) /\
     active (timers (exec (startTimer dur) c w)) !! next_id (timers w)
     = Some (OverlayTick (c 0%nat) dur)) /\
  (forall c w, overlay_idle w -> exec stopTimer c w = w) /\
  (forall c c' w, exec stopTimer c' (exec stopTimer c w) = exec stopTimer c w).
Proof.
  split; [|split; [exact startTimer_replaces|split;
                   [exact stopTimer_idle|exact stopTimer_idempotent]]].
  intros w Hr.
  pose proof (reachable_timers_inv w Hr) as IT.
  pose proof (reachable_overlay_inv w Hr) as IO.
  split; [|split].
  - split; [apply (inv_handle_fresh _ IT)|apply (inv_elem_fresh _ IO)].
  - rewrite (inv_overlay_nodes _ IO). destruct (timerElement (vars w)); cbn; lia.
  - intros i j [s d| |] [s' d'| |] Hi Oi Hj Oj; try contradiction.
    pose proof (inv_overlay_handle _ IT _ _ _ Hi) as E1.
    pose proof (inv_overlay_handle _ IT _ _ _ Hj) as E2.
    congruence.
Qed.

Lemma single_overlay_witness :
  reachable stage1 /\
  (length (overlay_nodes (body (dom stage1))) <= 1)%nat /\
  (TimerDiv 0 ∈ body (dom stage1)) /\
  timerElement (vars stage1) = Some 0%nat /\
  (TimerDiv 0 ∉ body (dom (exec (startTimer 4500) (at_time 2500) stage1))) /\
  overlay_idle armed /\
  exec stopTimer (at_time 8600) armed = armed.
Proof.
  assert (Hr : reachable stage1) by (apply reach_step, reach_initial).
  destruct (proj1 single_overlay stage1 Hr) as [Hh [Hlen _]].
  assert (Hidle : overlay_idle armed).
  { split; [vm_compute; reflexivity|].
    intros id [= <-]. vm_compute. reflexivity. }
  split; [exact Hr|]. split; [exact Hlen|].
  split; [vm_compute; left|]. split; [vm_compute; reflexivity|].
  split.
  { apply (proj1 (proj1 (proj2 single_overlay) 4500 (at_time 2500) stage1 Hh)).
    vm_compute; reflexivity. }
  split; [exact Hidle|].
  exact (proj1 (proj2 (proj2 single_overlay)) (at_time 8600) armed Hidle).
Defined.

(** ** The verification response *)

#[local] Arguments truthy : simpl never.

(** C4, as the code has it: once the request settles, a rejection of
    [fetch], a rejection of [r.json()] and a body that is [null] call
    [resetSequence]; a body with a truthy [path] assigns it to
    [window.location.href]; any other body (no [path], or a falsy one) is
    dropped: no navigation, no reset, the world stays as it was with the
    request gone. In no case is a new request issued. *)
Theorem settlement_outcomes (o : Outcome) (c : Clock) (w : World) :
  (0 < fetches (nav w))%nat ->
  fetches (nav (step w (Settle o, c))) = pred (fetches (nav w)) /\
  state (vars (step w (Settle o, c))) = state (vars w) /\
  match o with
  | NetworkError | ParseError | Parsed JNull =>
      was_reset MsgComm w (step w (Settle o, c)) /\
      href (nav (step w (Settle o, c))) = href (nav w)
  | Parsed d =>
      if truthy (get_path d) then
        href (nav (step w (Settle o, c))) = get_path d /\
        reloads (nav (step w (Settle o, c))) = reloads (nav w) /\
        reset_calls (nav (step w (Settle o, c))) = reset_calls (nav w)
      else
        step w (Settle o, c)
        = with_nav (fun n => mkNav (pred (fetches n)) (href n) (reloads n)
                                   (reset_calls n)) w
  end.
Proof.
  destruct w as [[st last buf cps ti el] [A N] d [f h r rc]].
  cbn [nav fetches]. intros Hf. destruct f as [|k]; [lia|].
  unfold was_reset, step, handle, exec. cbn [fst snd].
  destruct o as [| |dd]; [| |destruct dd]; cbn [fetchSettled].
  all: try (destruct (get_path _) as [v|] eqn:Hp;
            [try (cbn in Hp; discriminate); destruct (truthy (Some v)) eqn:Hv|]).
  all: gate_unfold; cbn; destruct cps, ti, el; cbn;
       repeat split; reflexivity.
Qed.

Lemma settlement_outcomes_witness :
  (0 < fetches (nav succeeded))%nat /\
  step succeeded (Settle (Parsed (JObj [])), at_time 12100)
  = with_nav (fun n => mkNav (pred (fetches n)) (href n) (reloads n)
                             (reset_calls n)) succeeded /\
  was_reset MsgComm succeeded (step succeeded (Settle NetworkError, at_time 12100)).
Proof.
  assert (Hf : (0 < fetches (nav succeeded))%nat) by (vm_compute; lia).
  split; [exact Hf|]. split.
  - exact (proj2 (proj2 (settlement_outcomes (Parsed (JObj [])) (at_time 12100)
                           succeeded Hf))).
  - exact (proj1 (proj2 (proj2 (settlement_outcomes NetworkError (at_time 12100)
                                  succeeded Hf)))).
Defined.

(** C4 as stated fails: at stage 6 with the request in flight, the body
    [{}] leaves the page at stage 6 with no navigation, no reload and no
    call of [resetSequence], whereas a network error does reset. *)
Lemma missing_path_is_not_a_failure :
  state (vars succeeded) = 6 /\ fetches (nav succeeded) = 1%nat /\
  get_path (JObj []) = None /\
  state (vars (step succeeded (Settle (Parsed (JObj [])), at_time 12100))) = 6 /\
  href (nav (step succeeded (Settle (Parsed (JObj [])), at_time 12100))) = None /\
  reloads (nav (step succeeded (Settle (Parsed (JObj [])), at_time 12100))) = 0%nat /\
  reset_calls (nav (step succeeded (Settle (Parsed (JObj [])), at_time 12100))) = [] /\
  fetches (nav (step succeeded (Settle (Parsed (JObj [])), at_time 12100))) = 0%nat /\
  reloads (nav (step succeeded (Settle NetworkError, at_time 12100))) = 1%nat.
Proof. vm_compute. repeat split; reflexivity. Qed.

(** * Further properties of the challenge script *)

#[local] Arguments zone_nodes : simpl never.

Lemma zone_nodes_app l1 l2 :
  zone_nodes (l1 ++ l2) = zone_nodes l1 ++ zone_nodes l2.
Proof. apply omap_app. Qed.

Lemma zone_nodes_cons_zone z l : zone_nodes (ZoneNode z :: l) = z :: zone_nodes l.
Proof. reflexivity. Qed.

Lemma zone_nodes_cons_timer e l : zone_nodes (TimerDiv e :: l) = zone_nodes l.
Proof. reflexivity. Qed.

Lemma zone_nodes_detach_timer e l :
  zone_nodes (detach (TimerDiv e) l) = zone_nodes l.
Proof.
  unfold detach. induction l as [|[z'|e'] l IH]; [reflexivity| |].
  - rewrite filter_cons, decide_True by discriminate.
    rewrite !zone_nodes_cons_zone. f_equal. exact IH.
  - rewrite filter_cons.
    destruct (decide (TimerDiv e' <> TimerDiv e));
      rewrite ?zone_nodes_cons_timer; exact IH.
Qed.

Lemma zone_nodes_detach_zone z l :
  zone_nodes (detach (ZoneNode z) l) = filter (fun x => x <> z) (zone_nodes l).
Proof.
  unfold detach. induction l as [|[z'|e'] l IH]; [reflexivity| |].
  - rewrite filter_cons, zone_nodes_cons_zone, filter_cons.
    destruct (decide (z' = z)) as [->|Hne].
    + destruct (decide (ZoneNode z <> ZoneNode z)) as [H|_]; [congruence|].
      destruct (decide (z <> z)) as [H|_]; [congruence|]. exact IH.
    + destruct (decide (ZoneNode z' <> ZoneNode z)) as [_|H];
        [|exfalso; apply H; congruence].
      destruct (decide (z' <> z)) as [_|H]; [|contradiction].
      rewrite zone_nodes_cons_zone. f_equal. exact IH.
  - rewrite filter_cons, decide_True by discriminate.
    rewrite !zone_nodes_cons_timer. exact IH.
Qed.

Ltac progress_goal :=
  cbn; intros;
  repeat first [ rewrite zone_nodes_app
               | rewrite zone_nodes_detach_zone
               | rewrite zone_nodes_detach_timer
               | rewrite zone_nodes_cons_timer
               | rewrite zone_nodes_cons_zone ];
  unfold tally; cbn; rewrite ?length_app; cbn;
  repeat match goal with
  | H : ?P -> _ |- _ =>
      let HP := fresh in assert (HP : P) by lia; specialize (H HP); clear HP
  end;
  destruct_and?; simplify_eq;
  repeat match goal with H : zone_nodes _ = _ |- _ => rewrite H end;
  rewrite ?filter_cons, ?filter_nil; cbn;
  first [ done | lia | (split; first [ done | lia ]) ].

(** The fields of the invariant of [w], as hypotheses. *)
Ltac open_progress :=
  intros [HR HB HA HS HN HO HZ HK]; unfold tally in *; cbn in *.

Lemma click_progress_inv z c w :
  progress_inv w -> progress_inv (step w (Click z, c)).
Proof.
  destruct w as [[st last buf cps ti el] [A N] [B ne ot sk tx] [f h r rc]].
  intros I. unfold step. cbn [fst snd]. destruct z; cbn [handle]; gate_unfold; cbn.
  - destruct (Z.eqb_spec st 0); [subst; cbn|exact I]. revert I. open_progress.
    destruct ti, el; cbn; constructor; progress_goal.
  - destruct (Z.eqb_spec st 1); [subst; cbn|exact I]. revert I. open_progress.
    split_window; cbn; destruct cps, ti, el; cbn; constructor; progress_goal.
  - destruct (Z.eqb_spec st 2); [subst; cbn|].
    { revert I. open_progress.
      split_window; cbn; destruct cps, ti, el; cbn; constructor; progress_goal. }
    destruct (Z.eqb_spec st 3); [subst; cbn|].
    { revert I. open_progress.
      split_window; cbn; destruct cps, ti, el; cbn; constructor; progress_goal. }
    destruct (Z.eqb_spec st 4); [subst; cbn|].
    { revert I. open_progress.
      destruct ti, el; cbn; constructor; progress_goal. }
    destruct (Z.eqb_spec st 5); [subst; cbn|exact I]. revert I. open_progress.
    constructor; progress_goal.
Qed.

Lemma progress_inv_frame w w' :
  vars w' = vars w -> nav w' = nav w -> body (dom w') = body (dom w) ->
  z3_skin (dom w') = z3_skin (dom w) ->
  progress_inv w -> progress_inv w'.
Proof.
  intros Hv Hn Hb Hk [].
  constructor; unfold tally in *; rewrite ?Hv, ?Hn, ?Hb, ?Hk; assumption.
Qed.

Lemma cpsTick_skin c w : z3_skin (dom (exec cpsTick c w)) = z3_skin (dom w).
Proof. rewrite cpsTick_exec. reflexivity. Qed.

Lemma fire_progress_inv id c w :
  progress_inv w -> progress_inv (step w (Fire id, c)).
Proof.
  intros I. unfold step, handle, exec. cbn [fst snd].
  unfold bind at 1. unfold gets at 1.
  destruct (active (timers w) !! id) as [[s dur| |]|] eqn:Hid; [| | |exact I].
  - destruct w as [[st last buf cps ti el] [A N] [B ne ot sk tx] [f h r rc]].
    gate_unfold. cbn. revert I. open_progress.
    destruct (dur <=? c 0%nat - s); destruct ti, el; cbn;
      constructor; progress_goal.
  - destruct w as [[st last buf cps ti el] [A N] [B ne ot sk tx] [f h r rc]].
    gate_unfold. cbn.
    destruct (Z.eqb_spec st 5); [subst; cbn|].
    2:{ destruct I; constructor; cbn in *; assumption. }
    revert I. open_progress.
    destruct (Nat.leb_spec 180 (length buf)); destruct cps, ti, el; cbn;
      constructor; progress_goal.
  - apply (progress_inv_frame w); [apply cpsTick_frame..| |exact I].
    apply cpsTick_skin.
Qed.

Lemma settle_progress_inv o c w :
  progress_inv w -> progress_inv (step w (Settle o, c)).
Proof.
  intros I. unfold step, handle, exec. cbn [fst snd].
  unfold bind at 1. unfold gets at 1.
  destruct w as [[st last buf cps ti el] [A N] [B ne ot sk tx] [f h r rc]].
  cbn [nav fetches]. destruct f as [|k]; [exact I|].
  assert (st = 6).
  { destruct (Z.eq_dec st 6) as [E|E]; [exact E|].
    destruct (inv_no_request_before _ I E) as [H _]. discriminate H. }
  subst st. revert I. open_progress.
  destruct o as [| |dd]; [| |destruct dd]; unfold fetchSettled.
  all: try (destruct (get_path _) as [v|]; [destruct (truthy (Some v))|]).
  all: gate_unfold; cbn; destruct cps, ti, el; cbn.
  all: constructor; progress_goal.
Qed.

Lemma reachable_progress_inv w : reachable w -> progress_inv w.
Proof.
  induction 1 as [|w [[z|id|o] c] _ IH].
  - constructor; cbn; first [ done | lia | (split; first [ done | lia ]) ].
  - apply click_progress_inv, IH.
  - apply fire_progress_inv, IH.
  - apply settle_progress_inv, IH.
Qed.

Ltac live_goal HL :=
  unfold overlay_live; cbn; intros; map_hyps; saturate; simplify_eq;
  first
    [ done
    | (eexists; reflexivity)
    | (exfalso;
       match goal with
       | H : _ !! _ = Some (OverlayTick _ _) |- _ =>
           apply HL in H; cbn in H; destruct H as [? H]; discriminate H
       end)
    | congruence ].

Lemma step_overlay_live w ev :
  timers_inv w -> overlay_live w -> overlay_live (step w ev).
Proof.
  intros I HL. destruct ev as [[z|id|o] c]; unfold step; cbn [fst snd handle].
  - destruct w as [[st last buf cps ti el] [A N] d n].
    destruct z; gate_unfold; cbn.
    + destruct (Z.eqb_spec st 0); [subst; cbn|exact HL].
      destruct ti, el; live_goal HL.
    + destruct (Z.eqb_spec st 1); [subst; cbn|exact HL].
      split_window; cbn; destruct cps, ti, el; live_goal HL.
    + destruct (Z.eqb_spec st 2); [subst; cbn|].
      { split_window; cbn; destruct cps, ti, el; live_goal HL. }
      destruct (Z.eqb_spec st 3); [subst; cbn|].
      { split_window; cbn; destruct cps, ti, el; live_goal HL. }
      destruct (Z.eqb_spec st 4); [subst; cbn|].
      { destruct ti, el; live_goal HL. }
      destruct (Z.eqb_spec st 5); [subst; cbn|exact HL]. exact HL.
  - unfold exec. unfold bind at 1. unfold gets at 1.
    destruct (active (timers w) !! id) as [[s dur| |]|] eqn:Hid; [| | |exact HL].
    + destruct w as [[st last buf cps ti el] [A N] d n].
      cbn [timers active] in Hid. gate_unfold. cbn.
      destruct (dur <=? c 0%nat - s); destruct ti, el; live_goal HL.
    + destruct w as [[st last buf cps ti el] [A N] d n].
      cbn [timers active] in Hid.
      assert (st = 5) by (saturate; assumption). subst st.
      gate_unfold. cbn.
      destruct (180 <=? length buf)%nat; destruct cps, ti, el; live_goal HL.
    + change (overlay_live (exec cpsTick c w)).
      unfold overlay_live.
      replace (timers (exec cpsTick c w)) with (timers w)
        by (symmetry; apply cpsTick_frame).
      replace (vars (exec cpsTick c w)) with (vars w)
        by (symmetry; apply cpsTick_frame).
      exact HL.
  - unfold exec. unfold bind at 1. unfold gets at 1.
    destruct w as [[st last buf cps ti el] [A N] d [f h r rc]].
    cbn [nav fetches]. destruct f as [|k]; [exact HL|].
    assert (A = ∅).
    { apply (inv_done_quiet _ I). apply (inv_fetch_done _ I). cbn. lia. }
    subst A.
    destruct o as [| |dd]; [| |destruct dd]; unfold fetchSettled.
    all: try (destruct (get_path _) as [v|]; [destruct (truthy (Some v))|]).
    all: gate_unfold; cbn; destruct cps, ti, el; unfold overlay_live; cbn;
         intros; rewrite ?delete_empty in *; rewrite lookup_empty in *;
         discriminate.
Qed.

Lemma reachable_overlay_live w : reachable w -> overlay_live w.
Proof.
  induction 1 as [|w ev Hr IH].
  - intros id s d H. cbn in H. rewrite lookup_empty in H. discriminate.
  - apply step_overlay_live; [apply reachable_timers_inv, Hr|exact IH].
Qed.

Lemma reachable_armed : reachable armed.
Proof. repeat apply reach_step. apply reach_initial. Qed.

Lemma reachable_bursting n : reachable (bursting n).
Proof. apply reachable_run, reachable_armed. Qed.

Lemma reachable_succeeded : reachable succeeded.
Proof. apply reach_step, reachable_bursting. Qed.

(** ** Which zone is mounted *)

(** X1: in every world the page can reach exactly one zone is mounted: zone 1
    at stage 0, zone 2 at stage 1, zone 3 from stage 2 on; up to stage 5 it
    is a zone whose handler acts at that stage. *)
Theorem mounted_zone_matches_stage (w : World) :
  reachable w ->
  zone_nodes (body (dom w)) = [zone_for (state (vars w))] /\
  (state (vars w) <= 5 ->
   guard (zone_for (state (vars w))) (state (vars w)) = true).
Proof.
  intros Hr. apply reachable_progress_inv in Hr.
  split; [apply (inv_zone _ Hr)|]. intros H5.
  pose proof (inv_stage_range _ Hr) as HR.
  assert (Hst : state (vars w) = 0 \/ state (vars w) = 1 \/ state (vars w) = 2 \/
                state (vars w) = 3 \/ state (vars w) = 4 \/ state (vars w) = 5)
    by lia.
  destruct Hst as [-> | [-> | [-> | [-> | [-> | ->]]]]]; reflexivity.
Qed.

Lemma mounted_zone_matches_stage_witness :
  reachable stage1 /\ zone_nodes (body (dom stage1)) = [zone2] /\
  reachable armed /\ zone_nodes (body (dom armed)) = [zone3].
Proof.
  assert (H1 : reachable stage1) by (apply reach_step, reach_initial).
  split; [exact H1|].
  split; [exact (proj1 (mounted_zone_matches_stage stage1 H1))|].
  split; [exact reachable_armed|].
  exact (proj1 (mounted_zone_matches_stage armed reachable_armed)).
Defined.

(** X2: zone 3 keeps the style it was created with up to stage 3, is the
    button at stages 4 and 5, and has the success colours at stage 6. *)
Theorem zone3_look_follows_stage (w : World) :
  reachable w -> z3_skin (dom w) = skin_for (state (vars w)).
Proof. intros Hr. apply (inv_skin _ (reachable_progress_inv w Hr)). Qed.

Lemma zone3_look_follows_stage_witness :
  reachable armed /\ z3_skin (dom armed) = SkinButton /\
  reachable succeeded /\ z3_skin (dom succeeded) = SkinSuccess.
Proof.
  split; [exact reachable_armed|].
  split; [exact (zone3_look_follows_stage armed reachable_armed)|].
  split; [exact reachable_succeeded|].
  rewrite (zone3_look_follows_stage succeeded reachable_succeeded).
  vm_compute. reflexivity.
Defined.

(** ** The click buffer and the verification request *)

(** X3: the buffer is empty as long as the burst has not started (stage 4 or
    lower) and holds at least the arming click from stage 5 on. *)
Theorem buffer_filled_only_in_burst (w : World) :
  reachable w ->
  (state (vars w) <= 4 -> clickerTimestamps (vars w) = []) /\
  (5 <= state (vars w) -> (1 <= tally w)%nat).
Proof.
  intros Hr. apply reachable_progress_inv in Hr.
  split; [apply (inv_buffer_before _ Hr)|apply (inv_buffer_armed _ Hr)].
Qed.

Lemma buffer_filled_only_in_burst_witness :
  reachable armed /\ state (vars armed) <= 4 /\ clickerTimestamps (vars armed) = [].
Proof.
  assert (H : state (vars armed) <= 4) by (vm_compute; discriminate).
  split; [exact reachable_armed|]. split; [exact H|].
  exact (proj1 (buffer_filled_only_in_burst armed reachable_armed) H).
Defined.

(** X4: [window.location.href] is assigned only in a world at stage 6, and
    stage 6 is only ever reached with at least 180 recorded clicks. *)
Theorem redirect_requires_success (w : World) :
  reachable w ->
  (href (nav w) <> None -> state (vars w) = 6) /\
  (state (vars w) = 6 -> (180 <= tally w)%nat).
Proof.
  intros Hr. apply reachable_progress_inv in Hr. split.
  - intros Hh. destruct (Z.eq_dec (state (vars w)) 6) as [E|E]; [exact E|].
    destruct (inv_no_request_before _ Hr E) as [_ Hn]. contradiction.
  - apply (inv_success_tally _ Hr).
Qed.

Lemma redirect_requires_success_witness :
  reachable redirected /\ href (nav redirected) = Some (JStr "/hidden") /\
  state (vars redirected) = 6 /\ (180 <= tally redirected)%nat.
Proof.
  assert (Hr : reachable redirected) by (apply reach_step, reachable_succeeded).
  assert (Hh : href (nav redirected) = Some (JStr "/hidden"))
    by (vm_compute; reflexivity).
  assert (H6 : state (vars redirected) = 6).
  { apply (proj1 (redirect_requires_success redirected Hr)).
    rewrite Hh. discriminate. }
  split; [exact Hr|]. split; [exact Hh|]. split; [exact H6|].
  exact (proj2 (redirect_requires_success redirected Hr) H6).
Defined.

(** X5: a verification request is in flight only at stage 6, and never more
    than one. *)
Theorem single_verification_request (w : World) :
  reachable w ->
  (fetches (nav w) <= 1)%nat /\
  ((0 < fetches (nav w))%nat -> state (vars w) = 6).
Proof.
  intros Hr. apply reachable_progress_inv in Hr.
  split; [apply (inv_one_request _ Hr)|]. intros Hf.
  destruct (Z.eq_dec (state (vars w)) 6) as [E|E]; [exact E|].
  destruct (inv_no_request_before _ Hr E) as [Hn _]. lia.
Qed.

Lemma single_verification_request_witness :
  reachable succeeded /\ fetches (nav succeeded) = 1%nat /\
  state (vars succeeded) = 6.
Proof.
  assert (Hf : fetches (nav succeeded) = 1%nat) by (vm_compute; reflexivity).
  split; [exact reachable_succeeded|]. split; [exact Hf|].
  apply (proj2 (single_verification_request succeeded reachable_succeeded)).
  rewrite Hf. apply le_n.
Defined.

(** X6: once stage 6 is reached, clicks and timer firings change nothing;
    only the settlement of the verification request can still act. *)
Theorem nothing_after_success (w : World) (ev : Event) (c : Clock) :
  reachable w -> state (vars w) = 6 ->
  (forall o, ev <> Settle o) ->
  step w (ev, c) = w.
Proof.
  intros Hr H6 Hev.
  pose proof (inv_done_quiet _ (reachable_timers_inv w Hr) H6) as HA.
  destruct w as [[st last buf cps ti el] [A N] d n].
  cbn [vars state timers active] in H6, HA. subst st A.
  destruct ev as [[]|id|o]; unfold step; cbn [fst snd handle].
  - reflexivity.
  - reflexivity.
  - reflexivity.
  - unfold exec, bind, gets. cbn. rewrite lookup_empty. reflexivity.
  - exfalso. exact (Hev o eq_refl).
Qed.

Lemma nothing_after_success_witness :
  reachable succeeded /\ state (vars succeeded) = 6 /\
  step succeeded (Fire 4%positive, at_time 12100) = succeeded.
Proof.
  assert (H6 : state (vars succeeded) = 6) by (vm_compute; reflexivity).
  split; [exact reachable_succeeded|]. split; [exact H6|].
  apply (nothing_after_success succeeded (Fire 4%positive) (at_time 12100)
           reachable_succeeded H6).
  intros o. discriminate.
Defined.

(** X7: at stage 5 every click on zone 3 appends the first clock reading of
    its handler and changes nothing else, so a run of such clicks extends
    the buffer by their timestamps in the order of the clicks. *)
Theorem burst_appends_in_order (cs : list Clock) (w : World) :
  state (vars w) = 5 ->
  run w (burst cs)
  = with_vars (set_clickerTimestamps
                 (clickerTimestamps (vars w) ++ map (fun c => c 0%nat) cs)) w.
Proof.
  revert w. induction cs as [|c cs IH]; intros w Hw.
  - destruct w as [[st last buf cps ti el] T d n]. cbn.
    rewrite app_nil_r. reflexivity.
  - cbn [burst map run fold_left]. fold (burst cs).
    change (fold_left step (burst cs) ?x) with (run x (burst cs)).
    rewrite (burst_click c w Hw). rewrite IH.
    + destruct w as [[st last buf cps ti el] T d n]. cbn.
      rewrite <- app_assoc. reflexivity.
    + destruct w as [[]]. exact Hw.
Qed.

Lemma burst_appends_in_order_witness :
  state (vars (bursting 0)) = 5 /\
  clickerTimestamps (vars (run (bursting 0) (burst [at_time 9100; at_time 9050])))
  = [9000; 9100; 9050].
Proof.
  assert (H5 : state (vars (bursting 0)) = 5) by (vm_compute; reflexivity).
  split; [exact H5|].
  rewrite (burst_appends_in_order [at_time 9100; at_time 9050] (bursting 0) H5).
  vm_compute. reflexivity.
Defined.

(** ** The overlay interval *)

(** X8: when an overlay interval fires in a reachable world, a readout is
    held; before the duration has elapsed the tick only writes the elapsed
    milliseconds into that readout, and from the duration on it cancels the
    interval and removes the readout, leaving none mounted. *)
Theorem overlay_tick_expiry (w : World) (id : positive) (s dur : Z) (c : Clock) :
  reachable w ->
  active (timers w) !! id = Some (OverlayTick s dur) ->
  exists e, timerElement (vars w) = Some e /\
    (c 0%nat - s < dur ->
       step w (Fire id, c) = exec (set_overlay_text e (c 0%nat - s)) c w) /\
    (dur <= c 0%nat - s ->
       active (timers (step w (Fire id, c))) !! id = None /\
       timerElement (vars (step w (Fire id, c))) = None /\
       overlay_nodes (body (dom (step w (Fire id, c)))) = []).
Proof.
  intros Hr Hid.
  pose proof (inv_overlay_handle _ (reachable_timers_inv w Hr) _ _ _ Hid) as Hti.
  pose proof (reachable_overlay_live w Hr _ _ _ Hid) as [e He].
  pose proof (inv_overlay_nodes _ (reachable_overlay_inv w Hr)) as Hnodes.
  exists e. split; [exact He|].
  assert (E : step w (Fire id, c) = exec (overlayTick s dur) c w).
  { unfold step, handle, exec. cbn [fst snd].
    unfold bind at 1. unfold gets at 1. rewrite Hid. reflexivity. }
  rewrite E. clear E.
  destruct w as [[st last buf cps ti el] [A N] [B ne ot sk tx] n].
  cbn [vars timers dom active body timerInterval timerElement] in *.
  subst ti el. cbn in Hnodes.
  split; intros Hd; gate_unfold; cbn.
  - destruct (Z.leb_spec dur (c 0%nat - s)); [lia|]. reflexivity.
  - destruct (Z.leb_spec dur (c 0%nat - s)); [|lia]. cbn.
    split; [apply lookup_delete_eq|]. split; [reflexivity|].
    rewrite overlay_nodes_detach_timer, Hnodes, filter_cons, filter_nil.
    rewrite decide_False by (intros H'; apply H'; reflexivity). reflexivity.
Qed.

Lemma overlay_tick_expiry_witness :
  reachable stage1 /\
  active (timers stage1) !! 1%positive = Some (OverlayTick 0 3500) /\
  overlay_nodes (body (dom stage1)) = [0%nat] /\
  overlay_nodes (body (dom (step stage1 (Fire 1%positive, at_time 3500)))) = [].
Proof.
  assert (Hr : reachable stage1) by (apply reach_step, reach_initial).
  assert (Hid : active (timers stage1) !! 1%positive = Some (OverlayTick 0 3500))
    by (vm_compute; reflexivity).
  split; [exact Hr|]. split; [exact Hid|]. split; [vm_compute; reflexivity|].
  destruct (overlay_tick_expiry stage1 1%positive 0 3500 (at_time 3500) Hr Hid)
    as [e [_ [_ H]]].
  apply H. vm_compute. discriminate.
Defined.

(** ** Reset *)

(** X9: a second [resetSequence] right after a first one changes neither
    the variables nor the timer table nor the document; it only requests the
    reload once more. *)
Theorem reset_twice_is_reset_once (m m' : Message) (c c' : Clock) (w : World) :
  vars (exec (resetSequence m') c' (exec (resetSequence m) c w))
  = vars (exec (resetSequence m) c w) /\
  timers (exec (resetSequence m') c' (exec (resetSequence m) c w))
  = timers (exec (resetSequence m) c w) /\
  dom (exec (resetSequence m') c' (exec (resetSequence m) c w))
  = dom (exec (resetSequence m) c w) /\
  reloads (nav (exec (resetSequence m') c' (exec (resetSequence m) c w)))
  = S (reloads (nav (exec (resetSequence m) c w))).
Proof.
  destruct w as [[st last buf cps ti el] [A N] [B ne ot sk tx] n].
  gate_unfold. destruct cps as [i|], ti as [j|], el as [e|]; cbn.
  all: repeat split; try reflexivity.
  all: f_equal; apply map_eq; intros k; rewrite !lookup_delete;
       repeat case_decide; reflexivity.
Qed.

(** ** Which clock reading is kept *)

(** X10: an accepted click on zone 1 records its first clock reading, an
    accepted click on zone 2 records a second reading taken after the one
    that was tested, an accepted first blind click records the reading that
    was tested; clicks on zone 3 from stage 3 on leave the recorded time as
    it is, so the window of the second blind click and nothing later is
    measured from the first blind click. *)
Theorem recorded_timestamps (c : Clock) (w : World) :
  (state (vars w) = 0 ->
   lastClickTimestamp (vars (step w (Click zone1, c))) = c 0%nat) /\
  (state (vars w) = 1 -> 2000 <= elapsed c w <= 3500 ->
   lastClickTimestamp (vars (step w (Click zone2, c))) = c 1%nat) /\
  (state (vars w) = 2 -> 3000 <= elapsed c w <= 4500 ->
   lastClickTimestamp (vars (step w (Click zone3, c))) = c 0%nat) /\
  (3 <= state (vars w) ->
   lastClickTimestamp (vars (step w (Click zone3, c)))
   = lastClickTimestamp (vars w)).
Proof.
  destruct w as [[st last buf cps ti el] T d n].
  unfold elapsed. cbn [vars state lastClickTimestamp].
  split; [|split; [|split]].
  - intros ->. gate_unfold. cbn. destruct ti, el; reflexivity.
  - intros -> Hw. gate_unfold. cbn. split_window. cbn.
    destruct ti, el; reflexivity.
  - intros -> Hw. gate_unfold. cbn. split_window. cbn.
    destruct ti, el; reflexivity.
  - intros H3. gate_unfold. cbn.
    destruct (Z.eqb_spec st 2); [lia|].
    destruct (Z.eqb_spec st 3); [subst; cbn|].
    { split_window; cbn; destruct cps, ti, el; reflexivity. }
    destruct (Z.eqb_spec st 4); [subst; cbn|].
    { destruct ti, el; reflexivity. }
    destruct (Z.eqb_spec st 5); [subst|]; reflexivity.
Qed.

Lemma recorded_timestamps_witness :
  state (vars stage1) = 1 /\ 2000 <= elapsed (ticking 2500) stage1 <= 3500 /\
  lastClickTimestamp (vars (step stage1 (Click zone2, ticking 2500))) = 2501 /\
  3 <= state (vars armed) /\
  lastClickTimestamp (vars (step armed (Click zone3, ticking 9000))) = 6000.
Proof.
  assert (H1 : state (vars stage1) = 1) by (vm_compute; reflexivity).
  assert (He : 2000 <= elapsed (ticking 2500) stage1 <= 3500)
    by (vm_compute; split; discriminate).
  assert (H3 : 3 <= state (vars armed)) by (vm_compute; discriminate).
  split; [exact H1|]. split; [exact He|].
  split; [exact (proj1 (proj2 (recorded_timestamps (ticking 2500) stage1)) H1 He)|].
  split; [exact H3|].
  exact (proj2 (proj2 (proj2 (recorded_timestamps (ticking 9000) armed))) H3).
Defined.

(** * Properties of the live-refresh script *)

Lemma live_run_running p evs :
  Live.run (Live.Running p) evs = Live.Running (Live.handles p evs).
Proof.
  revert p. induction evs as [|ev evs IH]; intros p; [reflexivity|].
  cbn. apply IH.
Qed.

(** X11: when either container is missing the handler only logs the error:
    no event source exists, and whatever happens later the page stays as it
    is. *)
Theorem live_setup_needs_both_containers
    (sl dt : option Live.Container) (meta : option (option string))
    (evs : list Live.Event) :
  sl = None \/ dt = None ->
  Live.run (Live.setup sl dt meta) evs = Live.NotSetUp [Live.ErrNoContainers].
Proof.
  intros H.
  assert (E : Live.setup sl dt meta = Live.NotSetUp [Live.ErrNoContainers]).
  { destruct sl, dt, H; try discriminate; reflexivity. }
  rewrite E. clear. induction evs as [|ev evs IH]; [reflexivity|exact IH].
Qed.

Lemma live_setup_needs_both_containers_witness :
  Live.run (Live.setup (Some (Live.mkContainer "x" None)) None (Some (Some "tok"%string)))
           [Live.SrcOpen; Live.SrcMessage "update"]
  = Live.NotSetUp [Live.ErrNoContainers].
Proof.
  apply live_setup_needs_both_containers. right. reflexivity.
Defined.

(** X12: a message starts an update request only when the source is open,
    the data is the string "update" and the CSRF meta element exists; the
    request then carries the element's [content]. Otherwise nothing is
    sent. No message touches the containers or the pending fades. *)
Theorem live_message_starts_update (p : Live.Live) (data : string) :
  (forall token, Live.readyState p = Live.OPEN -> data = "update"%string ->
     Live.csrf_meta p = Some token ->
     Live.handle (Live.SrcMessage data) p
     = Live.fetch_fragments token (Live.log_line Live.LogFetching p)) /\
  (Live.readyState p <> Live.OPEN \/ data <> "update"%string \/
   Live.csrf_meta p = None ->
     Live.in_flight (Live.handle (Live.SrcMessage data) p) = Live.in_flight p /\
     Live.sent (Live.handle (Live.SrcMessage data) p) = Live.sent p) /\
  Live.serverListContainer (Live.handle (Live.SrcMessage data) p)
  = Live.serverListContainer p /\
  Live.downtimeTableContainer (Live.handle (Live.SrcMessage data) p)
  = Live.downtimeTableContainer p /\
  Live.fades (Live.handle (Live.SrcMessage data) p) = Live.fades p.
Proof.
  destruct p as [a b meta rs n s f nf lg].
  unfold Live.handle, Live.onmessage, Live.updateContent.
  cbn [Live.readyState Live.csrf_meta].
  split; [|split].
  - intros token -> -> ->. rewrite bool_decide_true by reflexivity. reflexivity.
  - intros H. destruct rs; try (split; reflexivity).
    destruct (decide (data = "update"%string)) as [->|Hne].
    + rewrite bool_decide_true by reflexivity.
      destruct H as [H|[H|H]]; try contradiction. subst meta.
      split; reflexivity.
    + rewrite bool_decide_false by exact Hne. split; reflexivity.
  - destruct rs; try (repeat split; reflexivity).
    destruct (bool_decide (data = "update"%string));
      [destruct meta|]; repeat split; reflexivity.
Qed.

Lemma live_message_starts_update_witness :
  Live.handle (Live.SrcMessage "update") Live.sample
  = Live.fetch_fragments (Some "tok"%string)
      (Live.log_line Live.LogFetching Live.sample) /\
  Live.sent (Live.handle (Live.SrcMessage "refresh") Live.sample)
  = Live.sent Live.sample.
Proof.
  split.
  - apply (proj1 (live_message_starts_update Live.sample "update")); reflexivity.
  - apply (proj1 (proj2 (live_message_starts_update Live.sample "refresh"))).
    right. left. discriminate.
Defined.

(** X13: an update whose fetches do not both succeed with a readable body
    (a rejected fetch, a response that is not ok, a body that cannot be
    read) leaves both containers and the pending fades as they are; it only
    logs the failure. *)
Theorem live_failed_update_changes_nothing (o : Live.Fetched) (p : Live.Live) :
  (0 < Live.in_flight p)%nat -> ~ Live.complete o ->
  Live.handle (Live.Settled o) p
  = Live.log_line Live.ErrUpdateFailed
      (Live.set_in_flight (pred (Live.in_flight p)) p).
Proof.
  destruct p as [a b meta rs n s f nf lg]. cbn [Live.in_flight].
  intros Hn Hc. destruct n as [|k]; [lia|].
  unfold Live.handle. cbn.
  destruct o as [|[] [] [h1|] [h2|]]; try reflexivity.
  exfalso. apply Hc. exists h1, h2. reflexivity.
Qed.

Lemma live_failed_update_changes_nothing_witness :
  Live.handle (Live.Settled (Live.Responded true false (Some "a"%string) (Some "b"%string)))
              (Live.fetch_fragments (Some "tok"%string) Live.sample)
  = Live.log_line Live.ErrUpdateFailed
      (Live.set_in_flight 0 (Live.fetch_fragments (Some "tok"%string) Live.sample)).
Proof.
  apply (live_failed_update_changes_nothing
           (Live.Responded true false (Some "a"%string) (Some "b"%string))
           (Live.fetch_fragments (Some "tok"%string) Live.sample)).
  - cbn. lia.
  - intros [h1 [h2 H]]. discriminate H.
Defined.

(** X14: when both fetches succeed, both containers are faded out at once
    with their content still in place, and when the timeout of that update
    fires both get the two fragments of that update and full opacity. *)
Theorem live_update_swaps_both (h1 h2 : string) (p : Live.Live) :
  (0 < Live.in_flight p)%nat ->
  let p1 := Live.handle (Live.Settled (Live.Responded true true (Some h1) (Some h2))) p in
  let p2 := Live.handle (Live.FadeFire (Live.next_fade p)) p1 in
  Live.serverListContainer p1
  = Live.mkContainer (Live.innerHTML (Live.serverListContainer p)) (Some 0) /\
  Live.downtimeTableContainer p1
  = Live.mkContainer (Live.innerHTML (Live.downtimeTableContainer p)) (Some 0) /\
  Live.fades p1 !! Live.next_fade p = Some (h1, h2) /\
  Live.serverListContainer p2 = Live.mkContainer h1 (Some 1) /\
  Live.downtimeTableContainer p2 = Live.mkContainer h2 (Some 1) /\
  Live.fades p2 !! Live.next_fade p = None.
Proof.
  destruct p as [a b meta rs n s f nf lg]. cbn [Live.in_flight Live.next_fade].
  intros Hn. destruct n as [|k]; [lia|].
  cbn zeta. unfold Live.handle. cbn.
  rewrite lookup_insert_eq. cbn.
  repeat split; try reflexivity. apply lookup_delete_eq.
Qed.

Lemma live_update_swaps_both_witness :
  Live.serverListContainer
    (Live.handles (Live.fetch_fragments (Some "tok"%string) Live.sample)
       [Live.Settled (Live.Responded true true (Some "<ul>new</ul>"%string)
                                     (Some "<table>new</table>"%string));
        Live.FadeFire 1%positive])
  = Live.mkContainer "<ul>new</ul>" (Some 1).
Proof.
  refine (proj1 (proj2 (proj2 (proj2
    (live_update_swaps_both "<ul>new</ul>" "<table>new</table>"
       (Live.fetch_fragments (Some "tok"%string) Live.sample) _))))).
  cbn. lia.
Defined.

Lemma live_closed_stays (evs : list Live.Event) : forall p,
  Live.readyState p = Live.CLOSED ->
  Live.readyState (Live.handles p evs) = Live.CLOSED /\
  Live.sent (Live.handles p evs) = Live.sent p.
Proof.
  induction evs as [|ev evs IH]; intros p Hp; [split; [exact Hp|reflexivity]|].
  cbn [Live.handles fold_left].
  change (fold_left _ evs ?q) with (Live.handles q evs).
  assert (H : Live.readyState (Live.handle ev p) = Live.CLOSED /\
              Live.sent (Live.handle ev p) = Live.sent p).
  { destruct p as [a b meta rs n s f nf lg]. cbn in Hp. subst rs.
    destruct ev as [|data|fatal|o|id]; cbn; try (split; reflexivity).
    - destruct n as [|k]; [split; reflexivity|].
      destruct o as [|[] [] [h1|] [h2|]]; split; reflexivity.
    - destruct (f !! id); split; reflexivity. }
  destruct H as [Hc Hs]. destruct (IH _ Hc) as [H1 H2].
  split; [exact H1|]. rewrite H2. exact Hs.
Qed.

(** X15: the error handler closes the event source, whether the browser was
    about to reconnect or not; a closed source stays closed, so after an
    error event no further update request is ever sent. *)
Theorem live_error_closes_for_good
    (p : Live.Live) (fatal : bool) (evs : list Live.Event) :
  Live.readyState (Live.handle (Live.SrcError fatal) p) = Live.CLOSED /\
  Live.readyState (Live.handles (Live.handle (Live.SrcError fatal) p) evs)
  = Live.CLOSED /\
  Live.sent (Live.handles (Live.handle (Live.SrcError fatal) p) evs) = Live.sent p.
Proof.
  assert (H : Live.readyState (Live.handle (Live.SrcError fatal) p) = Live.CLOSED /\
              Live.sent (Live.handle (Live.SrcError fatal) p) = Live.sent p).
  { destruct p as [a b meta rs n s f nf lg].
    destruct rs, fatal; split; reflexivity. }
  destruct H as [Hc Hs]. split; [exact Hc|].
  destruct (live_closed_stays evs _ Hc) as [H1 H2].
  split; [exact H1|]. rewrite H2. exact Hs.
Qed.

Lemma live_handle_never_stuck ev p :
  Live.never_stuck_hidden p -> Live.never_stuck_hidden (Live.handle ev p).
Proof.
  destruct p as [a b meta rs n s f nf lg]. unfold Live.never_stuck_hidden.
  cbn. intros H.
  destruct ev as [|data|fatal|o|id]; cbn.
  - destruct rs; exact H.
  - destruct rs; try exact H. unfold Live.onmessage, Live.updateContent.
    destruct (bool_decide _); [|exact H]. cbn. destruct meta; exact H.
  - destruct rs, fatal; exact H.
  - destruct n as [|k]; [exact H|].
    destruct o as [|[] [] [h1|] [h2|]]; try exact H.
    cbn. intros _. exists nf, (h1, h2). apply lookup_insert_eq.
  - destruct (f !! id) as [h|] eqn:Hid; [|exact H].
    cbn. intros [H'|H']; discriminate H'.
Qed.

(** X16: if the script did not find a container faded out, then a container
    is at opacity 0 only while a fade timeout is pending: an update never
    leaves the containers hidden for good. *)
Theorem live_hidden_only_while_fading
    (a b : Live.Container) (meta : option (option string))
    (evs : list Live.Event) :
  Live.opacity a <> Some 0 -> Live.opacity b <> Some 0 ->
  Live.run (Live.setup (Some a) (Some b) meta) evs
  = Live.Running (Live.handles (Live.mkLive a b meta Live.CONNECTING 0 [] ∅ 1%positive []) evs) /\
  Live.never_stuck_hidden
    (Live.handles (Live.mkLive a b meta Live.CONNECTING 0 [] ∅ 1%positive []) evs).
Proof.
  intros Ha Hb. split; [apply live_run_running|].
  assert (H0 : Live.never_stuck_hidden
                 (Live.mkLive a b meta Live.CONNECTING 0 [] ∅ 1%positive [])).
  { intros [H|H]; cbn in H; contradiction. }
  revert H0. generalize (Live.mkLive a b meta Live.CONNECTING 0 [] ∅ 1%positive []).
  induction evs as [|ev evs IH]; intros p Hp; [exact Hp|].
  cbn [Live.handles fold_left].
  change (fold_left _ evs ?q) with (Live.handles q evs).
  apply IH, live_handle_never_stuck, Hp.
Qed.

Lemma live_hidden_only_while_fading_witness :
  Live.never_stuck_hidden
    (Live.handles
       (Live.mkLive (Live.mkContainer "<ul>old</ul>" None)
                    (Live.mkContainer "<table>old</table>" None)
                    (Some (Some "tok"%string)) Live.CONNECTING 0 [] ∅ 1%positive [])
       [Live.SrcOpen; Live.SrcMessage "update";
        Live.Settled (Live.Responded true true (Some "a"%string) (Some "b"%string))]).
Proof.
  refine (proj2 (live_hidden_only_while_fading
                   (Live.mkContainer "<ul>old</ul>" None)
                   (Live.mkContainer "<table>old</table>" None)
                   (Some (Some "tok"%string)) _ _ _)); discriminate.
Defined.
